(** * OpenDeep model layers: hooks, configuration and graph construction

    A shallow embedding of
      - opendeep/Tutorials/Tutorial01_Modular_DAE.py  (DenoisingAutoencoder)
      - opendeep/models/single_layer/convolutional.py (Conv1D, Conv2D, ConvPoolLayer)

    Conventions of the embedding.
      - A Python object is a value of one dynamically typed datatype.  The
        Theano graph a constructor builds is a term of that datatype: a node
        is the term that denotes it, and handing a node on hands on the same
        term.  Leaves carry the position at which the store allocated them,
        so two allocations are never the same node.
      - Allocating a symbolic input (T.fmatrix and the like) or a shared
        parameter (get_weights_uniform and the like) is an effect on the
        store; exceptions end a construction.  Both are threaded through one
        monad.
      - Graph operations (T.dot, +, .T, dimshuffle, slicing, concatenate) and
        calls of callables build the node of their application and do not
        fail.  len, subscripts with a literal index, unpacking and integer
        arithmetic are the ones of plain sequences and numbers; on anything
        else they raise.
      - The sources are Python 2: [/] on integers is floor division, strings
        are instances of basestring.  Assertions are enabled. *)

From Stdlib Require Import ZArith QArith String Ascii List Lia.
From stdpp Require Import base option list gmap strings.

Local Open Scope string_scope.
Local Open Scope Z_scope.
Local Open Scope list_scope.

(** ** Python values and Theano graph nodes *)

(** One component of a subscript [x[a:b]] or [x[:]]. *)
Inductive index : Type :=
| Full
| Range (lo hi : option Z).

#[warnings="-register-all"]
Inductive value : Type :=
(* plain Python data *)
| VNone
| VBool (b : bool)
| VInt (z : Z)
| VFloat (q : Q)
| VStr (s : string)
| VTuple (items : list value)
| VList (items : list value)
| NdArray (items : list value)     (* a one-dimensional numpy array *)
| NdScalar (item : value)          (* a zero-dimensional numpy array *)
(* callables *)
| Builtin (name : string)          (* a library function object, e.g. rectifier *)
| Activation (name : string)       (* what get_activation_function(name) returns *)
| CostFunction (name : string)     (* what get_cost_function(name) returns *)
(* leaves of the graph; [id] is the position in the store *)
| Placeholder (id : nat) (rank : nat) (name : string)
| Shared (id : nat) (name : string) (shape : value) (init : initializer)
(* graph operations *)
| Dot (a b : value)
| Add (a b : value)
| Transpose (a : value)
| DimShuffle (a : value) (pattern : list (option Z))
| Subscript (a : value) (idx : list index)
| Concatenate (parts : list value) (axis : Z)
| SaltAndPepper (input corruption_level : value)   (* opendeep.utils.noise.salt_and_pepper *)
| Convolve (f img kerns : value) (kwargs : list (string * value))
| Call (f : value) (args : list value) (kwargs : list (string * value))
(* opendeep.function(inputs=..., outputs=...) *)
| Function (inputs : list value) (outputs : value)
with initializer : Type :=
| Uniform (interval : option value)
| Gaussian (mean std : option value)
| BiasInit (init_values : option value).

(** Truth value of an object, as [if x:] and [x or y] test it.  Constructor
    arguments are plain data, callables and graph nodes, which all have a
    truth value; arrays are made inside ConvPoolLayer by numpy.asarray and are
    never tested. *)
Definition truthy (v : value) : bool :=
  match v with
  | VNone => false
  | VBool b => b
  | VInt z => negb (z =? 0)
  | VFloat q => negb (Qnum q =? 0)
  | VStr s => negb (String.eqb s "")
  | VTuple l | VList l => match l with [] => false | _ => true end
  | _ => true
  end.

(** [a or b] *)
Definition py_or (a b : value) : value := if truthy a then a else b.

(** [callable(v)] *)
Definition callable (v : value) : bool :=
  match v with
  | Builtin _ | Activation _ | CostFunction _ | Function _ _ => true
  | _ => false
  end.

(** [isinstance(v, basestring)] *)
Definition is_basestring (v : value) : bool :=
  match v with VStr _ => true | _ => false end.

(** [v == n] for an integer literal [n]; True is 1, 1.0 is 1. *)
Definition py_eq_int (v : value) (n : Z) : bool :=
  match v with
  | VInt z => z =? n
  | VBool b => (if b then 1 else 0) =? n
  | VFloat q => Qeq_bool q (inject_Z n)
  | _ => false
  end.

(** [v == s] for a string literal [s]. *)
Definition py_eq_str (v : value) (s : string) : bool :=
  match v with VStr t => String.eqb t s | _ => false end.

Definition lower_ascii (c : ascii) : ascii :=
  let n := nat_of_ascii c in
  if ((65 <=? n) && (n <=? 90))%nat then ascii_of_nat (n + 32) else c.

(** [s.lower()] *)
Fixpoint lower (s : string) : string :=
  match s with
  | EmptyString => EmptyString
  | String c r => String (lower_ascii c) (lower r)
  end.

Fixpoint chars (s : string) : list value :=
  match s with
  | EmptyString => []
  | String c r => VStr (String c EmptyString) :: chars r
  end.

(** The items of a sequence object; None for objects that are no sequence. *)
Definition items_of (v : value) : option (list value) :=
  match v with
  | VTuple l | VList l | NdArray l => Some l
  | VStr s => Some (chars s)
  | _ => None
  end.

(** ** Dictionaries *)

Abbreviation dict := (gmap string value).

(** [d.get(k)] *)
Definition get (d : dict) (k : string) : value := default VNone (d !! k).

(** Modelled from the spec: the base class constructor Model.__init__ of
    opendeep/models/model.py, which is not among the sources.  It merges the
    supplied configuration over the defaults: "Any parameter from the 'config'
    will overwrite the 'defaults' dictionary", and stores the result as
    self.args.  [config=None] contributes nothing. *)
Definition Model_init (config : option dict) (defaults : dict) : dict :=
  match config with
  | Some c => c ∪ defaults
  | None => defaults
  end.

(** ** Exceptions, store and the construction monad *)

Inductive assertion : Type :=
| ParamsCount (expected found : nat)   (* assert len(params_hook) == expected *)
| InputsHookPair                       (* assert len(inputs_hook) == 2 *)
| ActivationCallable                   (* assert callable(activation_name) *)
| GroupOneOrTwo.                       (* assert self.group in [1, 2] *)

Inductive exn : Type :=
| AssertionError (a : assertion)
| TypeError
| IndexError
| AttributeError
| ValueError
| NotImplementedError (what : value)
| RuntimeError (what : value)
| UnsupportedActivation (name : value)
| UnsupportedCost (name : value).

(** The store lists the graph leaves allocated so far, oldest first. *)
Definition store : Type := list value.

Inductive outcome (A : Type) : Type :=
| Raised (e : exn)
| Returned (a : A) (s : store).
Arguments Raised {A} e.
Arguments Returned {A} a s.

Definition M (A : Type) : Type := store -> outcome A.

Definition ret {A} (a : A) : M A := fun s => Returned a s.
Definition raise {A} (e : exn) : M A := fun _ => Raised e.
Definition bind {A B} (m : M A) (k : A -> M B) : M B :=
  fun s => match m s with
           | Raised e => Raised e
           | Returned a s' => k a s'
           end.

Declare Scope py_scope.
Delimit Scope py_scope with py.
Notation "x <- m ;; k" := (bind m (fun x => k))
  (at level 100, m at next level, right associativity) : py_scope.
Notation "m ;;; k" := (bind m (fun _ => k))
  (at level 100, right associativity) : py_scope.
Local Open Scope py_scope.

(** [assert c] *)
Definition assert (c : bool) (a : assertion) : M unit :=
  if c then ret tt else raise (AssertionError a).

(** [len(v)] *)
Definition py_len (v : value) : M nat :=
  match items_of v with
  | Some l => ret (length l)
  | None => raise TypeError
  end.

(** [v[i]] for a literal index [i] *)
Definition getitem (v : value) (i : nat) : M value :=
  match items_of v with
  | Some l => match l !! i with
              | Some x => ret x
              | None => raise IndexError
              end
  | None => match v with NdScalar _ => raise IndexError | _ => raise TypeError end
  end.

(** [v[lo:hi]] for literal bounds: a sequence of the same type. *)
Definition getslice (v : value) (lo hi : nat) : M value :=
  let cut (l : list value) := take (hi - lo) (drop lo l) in
  match v with
  | VTuple l => ret (VTuple (cut l))
  | VList l => ret (VList (cut l))
  | NdArray l => ret (NdArray (cut l))
  | VStr s => ret (VStr (String.substring lo (hi - lo) s))
  | NdScalar _ => raise IndexError
  | _ => raise TypeError
  end.

(** [v[i] = x] on an array. *)
Definition setitem (v : value) (i : nat) (x : value) : M value :=
  match v with
  | NdArray l => if (i <? length l)%nat then ret (NdArray (<[i := x]> l))
                 else raise IndexError
  | NdScalar _ => raise IndexError
  | _ => raise TypeError
  end.

(** An object used as an integer (in arithmetic on extents, as a slice bound). *)
Definition as_int (v : value) : M Z :=
  match v with
  | VInt z => ret z
  | VBool b => ret (if b then 1 else 0)
  | _ => raise TypeError
  end.

(** [v / 2] in Python 2: floor division on integers, division on floats. *)
Definition halve (v : value) : M value :=
  match v with
  | VInt z => ret (VInt (z / 2))
  | VBool b => ret (VInt 0)
  | VFloat q => ret (VFloat (q / 2))
  | _ => raise TypeError
  end.

(** [v.lower()] *)
Definition py_lower (v : value) : M string :=
  match v with
  | VStr s => ret (lower s)
  | _ => raise AttributeError
  end.

Definition is_int (v : value) : bool :=
  match v with VInt _ => true | _ => false end.
Definition is_number (v : value) : bool :=
  match v with VInt _ | VFloat _ => true | _ => false end.
Definition to_float (v : value) : value :=
  match v with VInt z => VFloat (inject_Z z) | _ => v end.

(** [numpy.asarray(v)]: a sequence becomes a one-dimensional array (of
    integers, of floats when a float is among the numbers, of objects
    otherwise), an array is returned as it is, anything else becomes a
    zero-dimensional array. *)
Definition asarray (v : value) : value :=
  match v with
  | VTuple l | VList l =>
      if forallb is_int l then NdArray l
      else if forallb is_number l then NdArray (map to_float l)
      else NdArray l
  | NdArray _ | NdScalar _ => v
  | _ => NdScalar v
  end.

(** Calling a convolution implementation. *)
Definition py_convolve (f img kerns : value) (kwargs : list (string * value)) : M value :=
  if callable f then ret (Convolve f img kerns kwargs) else raise TypeError.

(** [f(args, kwargs)]: calling an object that is not callable is a TypeError;
    a callable yields the node of its application. *)
Definition py_call (f : value) (args : list value) (kwargs : list (string * value)) : M value :=
  if callable f then ret (Call f args kwargs) else raise TypeError.

(** Allocation of a graph leaf: it is appended to the store and its id is its
    position there. *)
Definition alloc (mk : nat -> value) : M value :=
  fun s => Returned (mk (length s)) (s ++ [mk (length s)]).

(** T.fmatrix, T.ftensor3, T.ftensor4 *)
Definition fmatrix (name : string) : M value := alloc (fun id => Placeholder id 2 name).
Definition ftensor3 (name : string) : M value := alloc (fun id => Placeholder id 3 name).
Definition ftensor4 (name : string) : M value := alloc (fun id => Placeholder id 4 name).

(** Modelled from the spec: get_weights_uniform, get_weights_gaussian and
    get_bias of opendeep/utils/nnet.py, which is not among the sources.  They
    are "pure functions producing ... parameter tensors from declarative
    names" and allocate new parameters "of the exact declared shape": each
    call returns a fresh shared variable that records the keywords it was
    given ([None] for a keyword the call leaves out). *)
Definition get_weights_uniform (shape : value) (interval : option value) (name : string) : M value :=
  alloc (fun id => Shared id name shape (Uniform interval)).
Definition get_weights_gaussian (shape : value) (mean std : option value) (name : string) : M value :=
  alloc (fun id => Shared id name shape (Gaussian mean std)).
Definition get_bias (shape : value) (name : string) (init_values : option value) : M value :=
  alloc (fun id => Shared id name shape (BiasInit init_values)).

Definition is_placeholder (v : value) : bool :=
  match v with Placeholder _ _ _ => true | _ => false end.
Definition is_shared (v : value) : bool :=
  match v with Shared _ _ _ _ => true | _ => false end.

(** The symbolic inputs, and the parameters, allocated so far. *)
Definition placeholders (s : store) : list value := List.filter is_placeholder s.
Definition shareds (s : store) : list value := List.filter is_shared s.

(** A computation that leaves [f] of the store as it found it, and one that
    leaves the store itself. *)
Definition preserves {X A} (f : store -> X) (m : M A) : Prop :=
  forall s a s', m s = Returned a s' -> f s' = f s.

Definition pure {A} (m : M A) : Prop :=
  forall s a s', m s = Returned a s' -> s' = s.

(** ** The name registries

    Modelled from the spec: get_activation_function and get_cost_function of
    opendeep/utils/activation.py and opendeep/utils/cost.py, which are not
    among the sources.  They are lookups by name, "unknown name fails"; which
    names are known is left open.  [has_cudnn] is the module-level flag of
    convolutional.py, set by whether the import of dnn succeeds. *)
Class Registry : Type := {
  activation_known : string -> bool;
  cost_known : string -> bool;
  has_cudnn : bool
}.

Section Lookup.
Context `{Registry}.

Definition get_activation_function (name : value) : M value :=
  match name with
  | VStr s => if activation_known s then ret (Activation s)
              else raise (UnsupportedActivation name)
  | _ => raise (UnsupportedActivation name)
  end.

Definition get_cost_function (name : value) : M value :=
  match name with
  | VStr s => if cost_known s then ret (CostFunction s)
              else raise (UnsupportedCost name)
  | _ => raise (UnsupportedCost name)
  end.
End Lookup.

(** [a, b, c = v] and the like: the items, when there are exactly [n]. *)
Definition unpack (n : nat) (v : value) : M (list value) :=
  match items_of v with
  | Some l => if (length l =? n)%nat then ret l else raise ValueError
  | None => raise TypeError
  end.

(** ** Tutorial01_Modular_DAE.py: DenoisingAutoencoder *)

Module DAE.
Section DenoisingAutoencoder.
Context `{Registry}.

Definition _defaults : dict :=
  list_to_map
    [ ("input_size", VInt (28 * 28));
      ("hidden_size", VInt 1000);
      ("corruption_level", VFloat (4 # 10));
      ("hidden_activation", VStr "tanh");
      ("visible_activation", VStr "sigmoid");
      ("cost_function", VStr "binary_crossentropy") ].

(** The keyword arguments of the constructor. *)
Record kwargs : Type := {
  config : option dict;
  defaults : dict;
  inputs_hook : value;
  hiddens_hook : value;
  params_hook : value;
  input_size : value;
  hidden_size : value;
  corruption_level : value;
  hidden_activation : value;
  visible_activation : value;
  cost_function : value
}.

(** [DenoisingAutoencoder()] *)
Definition no_kwargs : kwargs :=
  {| config := None; defaults := _defaults;
     inputs_hook := VNone; hiddens_hook := VNone; params_hook := VNone;
     input_size := VNone; hidden_size := VNone; corruption_level := VNone;
     hidden_activation := VNone; visible_activation := VNone;
     cost_function := VNone |}.

(** The attributes the constructor sets. *)
Record t : Type := {
  inputs : list value;
  params : list value;
  train_cost : value;
  hiddens : value;
  recon_predict : value;
  f_predict : value
}.

(** The options as lines 57 to 66 resolve them. *)
Definition resolved (a : kwargs) (explicit : value) (option_name : string) : value :=
  py_or explicit (get (Model_init (config a) (defaults a)) option_name).

Definition __init__ (a : kwargs) : M t :=
  let args := Model_init (config a) (defaults a) in
  input_size <- (if truthy (inputs_hook a) then getitem (inputs_hook a) 0
                 else ret (py_or (input_size a) (get args "input_size"))) ;;
  hidden_size <- (if truthy (hiddens_hook a) then getitem (hiddens_hook a) 0
                  else ret (py_or (hidden_size a) (get args "hidden_size"))) ;;
  let corruption_level := py_or (corruption_level a) (get args "corruption_level") in
  let hidden_act_name := py_or (hidden_activation a) (get args "hidden_activation") in
  hidden_activation <- get_activation_function hidden_act_name ;;
  let visible_act_name := py_or (visible_activation a) (get args "visible_activation") in
  visible_activation <- get_activation_function visible_act_name ;;
  let cost_func_name := py_or (cost_function a) (get args "cost_function") in
  cost_function <- get_cost_function cost_func_name ;;
  x <- (if truthy (inputs_hook a) then getitem (inputs_hook a) 1 else fmatrix "X") ;;
  let inputs := [x] in
  p <- (if truthy (params_hook a) then
          n <- py_len (params_hook a) ;;
          assert (n =? 3)%nat (ParamsCount 3 n) ;;;
          unpack 3 (params_hook a)
        else
          W <- get_weights_uniform (VTuple [input_size; hidden_size]) None "W" ;;
          b0 <- get_bias input_size "b0" None ;;
          b1 <- get_bias hidden_size "b1" None ;;
          ret [W; b0; b1]) ;;
  match p with
  | [W; b0; b1] =>
    let params := [W; b0; b1] in
    let corrupted_input := SaltAndPepper x corruption_level in
    hiddens <- py_call hidden_activation [Add (Dot corrupted_input W) b1] [] ;;
    reconstruction <- py_call visible_activation [Add (Dot hiddens (Transpose W)) b0] [] ;;
    train_cost <- py_call cost_function [] [("output", reconstruction); ("target", x)] ;;
    self_hiddens <- (if truthy (hiddens_hook a) then getitem (hiddens_hook a) 1
                     else py_call hidden_activation [Add (Dot x W) b1] []) ;;
    recon_predict <- py_call visible_activation [Add (Dot self_hiddens (Transpose W)) b0] [] ;;
    let f_predict := if truthy (hiddens_hook a)
                     then Function [self_hiddens] recon_predict
                     else Function [x] recon_predict in
    ret {| inputs := inputs; params := params; train_cost := train_cost;
           hiddens := self_hiddens; recon_predict := recon_predict;
           f_predict := f_predict |}
  | _ => raise ValueError
  end.

Definition get_inputs (self : t) : list value := inputs self.
Definition get_hiddens (self : t) : value := hiddens self.
Definition get_outputs (self : t) : value := recon_predict self.
Definition get_params (self : t) : list value := params self.
Definition get_train_cost (self : t) : value := train_cost self.
Definition predict (self : t) (input : value) : M value := py_call (f_predict self) [input] [].

(** The same call with another [params_hook]. *)
Definition with_params_hook (a : kwargs) (v : value) : kwargs :=
  {| config := config a; defaults := defaults a; inputs_hook := inputs_hook a;
     hiddens_hook := hiddens_hook a; params_hook := v; input_size := input_size a;
     hidden_size := hidden_size a; corruption_level := corruption_level a;
     hidden_activation := hidden_activation a;
     visible_activation := visible_activation a;
     cost_function := cost_function a |}.
End DenoisingAutoencoder.
End DAE.

(** ** convolutional.py: Conv1D *)

Module Conv1D.
Section Conv1D.
Context `{Registry}.

Definition defaults_ : dict :=
  list_to_map
    [ ("border_mode", VStr "valid");
      ("weights_init", VStr "uniform");
      ("weights_interval", VStr "montreal");
      ("weights_mean", VInt 0);
      ("weights_std", VFloat (5 # 1000));
      ("bias_init", VFloat 0);
      ("activation", Builtin "rectifier");
      ("convolution", Builtin "conv1d_mc0") ].

Record kwargs : Type := {
  inputs_hook : value;
  params_hook : value;
  input_shape : value;
  filter_shape : value;
  stride : value;
  weights_init : value;
  weights_interval : value;
  weights_mean : value;
  weights_std : value;
  bias_init : value;
  border_mode : value;
  activation : value;
  convolution : value;
  config : option dict;
  defaults : dict
}.

Record t : Type := {
  input : value;
  params : list value;
  output : value
}.

Definition __init__ (a : kwargs) : M t :=
  let args := Model_init (config a) (defaults a) in
  (* specifications *)
  p <- (if truthy (inputs_hook a) then
          n <- py_len (inputs_hook a) ;;
          assert (n =? 2)%nat InputsHookPair ;;;
          h0 <- getitem (inputs_hook a) 0 ;;
          let input_shape := py_or (py_or h0 (input_shape a)) (get args "input_shape") in
          input <- getitem (inputs_hook a) 1 ;;
          ret (input_shape, input)
        else
          let input_shape := py_or (input_shape a) (get args "input_shape") in
          input <- ftensor3 "X" ;;
          ret (input_shape, input)) ;;
  let '(input_shape, input) := p in
  let activation_name := py_or (activation a) (get args "activation") in
  activation_func <- (if is_basestring activation_name
                      then get_activation_function activation_name
                      else assert (callable activation_name) ActivationCallable ;;;
                           ret activation_name) ;;
  let filter_shape := py_or (filter_shape a) (get args "filter_shape") in
  num_filters <- getitem filter_shape 0 ;;
  filter_length <- getitem filter_shape 2 ;;
  let stride := py_or (stride a) (get args "stride") in
  let border_mode := py_or (border_mode a) (get args "border_mode") in
  let convolution := py_or (convolution a) (get args "convolution") in
  let weights_init := py_or (weights_init a) (get args "weights_init") in
  let weights_interval := py_or (weights_interval a) (get args "weights_interval") in
  let weights_mean := py_or (weights_mean a) (get args "weights_mean") in
  let weights_std := py_or (weights_std a) (get args "weights_std") in
  (* params *)
  p <- (if truthy (params_hook a) then
          n <- py_len (params_hook a) ;;
          assert (n =? 2)%nat (ParamsCount 2 n) ;;;
          unpack 2 (params_hook a)
        else
          wi <- py_lower weights_init ;;
          W <- (if String.eqb wi "gaussian" then
                  get_weights_gaussian filter_shape (Some weights_mean) (Some weights_std) "W"
                else
                  wi' <- py_lower (get args "weights_init") ;;
                  if String.eqb wi' "uniform" then
                    get_weights_uniform filter_shape (Some weights_interval) "W"
                  else
                    raise (NotImplementedError (get args "weights_init"))) ;;
          b <- get_bias (VTuple [num_filters]) "b" (Some (bias_init a)) ;;
          ret [W; b]) ;;
  match p with
  | [W; b] =>
    let params := [W; b] in
    (* computational graph *)
    conved <-
      (if py_eq_str border_mode "valid" || py_eq_str border_mode "full" then
         py_convolve convolution input W
           [("subsample", VTuple [stride]); ("image_shape", input_shape);
            ("filter_shape", filter_shape); ("border_mode", border_mode)]
       else if py_eq_str border_mode "same" then
         conved <- py_convolve convolution input W
           [("subsample", VTuple [stride]); ("image_shape", input_shape);
            ("filter_shape", filter_shape); ("border_mode", VStr "full")] ;;
         fl <- as_int filter_length ;;
         let shift := (fl - 1) / 2 in
         i2 <- getitem input_shape 2 ;;
         n <- as_int i2 ;;
         ret (Subscript conved [Full; Full; Range (Some shift) (Some (n + shift))])
       else
         raise (RuntimeError border_mode)) ;;
    output <- py_call activation_func [Add conved (DimShuffle b [None; Some 0; None])] [] ;;
    ret {| input := input; params := params; output := output |}
  | _ => raise ValueError
  end.

Definition get_inputs (self : t) : list value := [input self].
Definition get_outputs (self : t) : value := output self.
Definition get_params (self : t) : list value := params self.

(** The same call with another [params_hook]. *)
Definition with_params_hook (a : kwargs) (v : value) : kwargs :=
  {| inputs_hook := inputs_hook a; params_hook := v; input_shape := input_shape a;
     filter_shape := filter_shape a; stride := stride a;
     weights_init := weights_init a; weights_interval := weights_interval a;
     weights_mean := weights_mean a; weights_std := weights_std a;
     bias_init := bias_init a; border_mode := border_mode a;
     activation := activation a; convolution := convolution a;
     config := config a; defaults := defaults a |}.

(** The same call with [weights_init=explicit] and with the entry
    [weights_init: configured] in the configuration. *)
Definition with_weights_init (a : kwargs) (explicit configured : value) : kwargs :=
  {| inputs_hook := inputs_hook a; params_hook := params_hook a;
     input_shape := input_shape a; filter_shape := filter_shape a;
     stride := stride a; weights_init := explicit;
     weights_interval := weights_interval a; weights_mean := weights_mean a;
     weights_std := weights_std a; bias_init := bias_init a;
     border_mode := border_mode a; activation := activation a;
     convolution := convolution a;
     config := Some (<["weights_init" := configured]> (default ∅ (config a)));
     defaults := defaults a |}.
End Conv1D.
End Conv1D.

(** ** convolutional.py: Conv2D *)

Module Conv2D.
Section Conv2D.
Context `{Registry}.

Definition defaults_ : dict :=
  list_to_map
    [ ("border_mode", VStr "valid");
      ("weights_init", VStr "uniform");
      ("weights_interval", VStr "montreal");
      ("weights_mean", VInt 0);
      ("weights_std", VFloat (5 # 1000));
      ("bias_init", VFloat 0);
      ("activation", Builtin "rectifier");
      ("convolution", Builtin "T.nnet.conv2d") ].

Record kwargs : Type := {
  inputs_hook : value;
  params_hook : value;
  input_shape : value;
  filter_shape : value;
  strides : value;
  weights_init : value;
  weights_interval : value;
  weights_mean : value;
  weights_std : value;
  bias_init : value;
  border_mode : value;
  activation : value;
  convolution : value;
  config : option dict;
  defaults : dict
}.

Record t : Type := {
  input : value;
  params : list value;
  output : value
}.

Definition __init__ (a : kwargs) : M t :=
  let args := Model_init (config a) (defaults a) in
  (* specifications *)
  p <- (if truthy (inputs_hook a) then
          n <- py_len (inputs_hook a) ;;
          assert (n =? 2)%nat InputsHookPair ;;;
          h0 <- getitem (inputs_hook a) 0 ;;
          let input_shape := py_or (py_or h0 (input_shape a)) (get args "input_shape") in
          input <- getitem (inputs_hook a) 1 ;;
          ret (input_shape, input)
        else
          let input_shape := py_or (input_shape a) (get args "input_shape") in
          input <- ftensor4 "X" ;;
          ret (input_shape, input)) ;;
  let '(input_shape, input) := p in
  let activation_name := py_or (activation a) (get args "activation") in
  activation_func <- (if is_basestring activation_name
                      then get_activation_function activation_name
                      else assert (callable activation_name) ActivationCallable ;;;
                           ret activation_name) ;;
  let filter_shape := py_or (filter_shape a) (get args "filter_shape") in
  num_filters <- getitem filter_shape 0 ;;
  filter_size <- getslice filter_shape 2 3 ;;
  let strides := py_or (strides a) (get args "strides") in
  let border_mode := py_or (border_mode a) (get args "border_mode") in
  let convolution := py_or (convolution a) (get args "convolution") in
  let weights_init := py_or (weights_init a) (get args "weights_init") in
  let weights_interval := py_or (weights_interval a) (get args "weights_interval") in
  let weights_mean := py_or (weights_mean a) (get args "weights_mean") in
  let weights_std := py_or (weights_std a) (get args "weights_std") in
  (* params *)
  p <- (if truthy (params_hook a) then
          n <- py_len (params_hook a) ;;
          assert (n =? 2)%nat (ParamsCount 2 n) ;;;
          unpack 2 (params_hook a)
        else
          wi <- py_lower weights_init ;;
          W <- (if String.eqb wi "gaussian" then
                  get_weights_gaussian filter_shape (Some weights_mean) (Some weights_std) "W"
                else
                  wi' <- py_lower (get args "weights_init") ;;
                  if String.eqb wi' "uniform" then
                    get_weights_uniform filter_shape (Some weights_interval) "W"
                  else
                    raise (NotImplementedError (get args "weights_init"))) ;;
          b <- get_bias (VTuple [num_filters]) "b" (Some (bias_init a)) ;;
          ret [W; b]) ;;
  match p with
  | [W; b] =>
    let params := [W; b] in
    (* computational graph *)
    conved <-
      (if py_eq_str border_mode "valid" || py_eq_str border_mode "full" then
         py_convolve convolution input W
           [("subsample", strides); ("image_shape", input_shape);
            ("filter_shape", filter_shape); ("border_mode", border_mode)]
       else if py_eq_str border_mode "same" then
         conved <- py_convolve convolution input W
           [("subsample", strides); ("image_shape", input_shape);
            ("filter_shape", filter_shape); ("border_mode", VStr "full")] ;;
         f0 <- getitem filter_size 0 ;;
         fx <- as_int f0 ;;
         let shift_x := (fx - 1) / 2 in
         f1 <- getitem filter_size 1 ;;
         fy <- as_int f1 ;;
         let shift_y := (fy - 1) / 2 in
         i2 <- getitem input_shape 2 ;;
         n2 <- as_int i2 ;;
         i3 <- getitem input_shape 3 ;;
         n3 <- as_int i3 ;;
         ret (Subscript conved [Full; Full; Range (Some shift_x) (Some (n2 + shift_x));
                                Range (Some shift_y) (Some (n3 + shift_y))])
       else
         raise (RuntimeError border_mode)) ;;
    output <- py_call activation_func
                [Add conved (DimShuffle b [None; Some 0; None; None])] [] ;;
    ret {| input := input; params := params; output := output |}
  | _ => raise ValueError
  end.

Definition get_inputs (self : t) : list value := [input self].
Definition get_outputs (self : t) : value := output self.
Definition get_params (self : t) : list value := params self.

(** The same call with another [params_hook]. *)
Definition with_params_hook (a : kwargs) (v : value) : kwargs :=
  {| inputs_hook := inputs_hook a; params_hook := v; input_shape := input_shape a;
     filter_shape := filter_shape a; strides := strides a;
     weights_init := weights_init a; weights_interval := weights_interval a;
     weights_mean := weights_mean a; weights_std := weights_std a;
     bias_init := bias_init a; border_mode := border_mode a;
     activation := activation a; convolution := convolution a;
     config := config a; defaults := defaults a |}.

(** The same call with [weights_init=explicit] and with the entry
    [weights_init: configured] in the configuration. *)
Definition with_weights_init (a : kwargs) (explicit configured : value) : kwargs :=
  {| inputs_hook := inputs_hook a; params_hook := params_hook a;
     input_shape := input_shape a; filter_shape := filter_shape a;
     strides := strides a; weights_init := explicit;
     weights_interval := weights_interval a; weights_mean := weights_mean a;
     weights_std := weights_std a; bias_init := bias_init a;
     border_mode := border_mode a; activation := activation a;
     convolution := convolution a;
     config := Some (<["weights_init" := configured]> (default ∅ (config a)));
     defaults := defaults a |}.
End Conv2D.
End Conv2D.

(** ** convolutional.py: ConvPoolLayer *)

Module ConvPoolLayer.
Section ConvPoolLayer.
Context `{Registry}.

Definition defaults_ : dict :=
  list_to_map
    [ ("filter_shape", VTuple [VInt 96; VInt 3; VInt 11; VInt 11]);
      ("convstride", VInt 4);
      ("padsize", VInt 0);
      ("group", VInt 1);
      ("poolsize", VInt 3);
      ("poolstride", VInt 2);
      ("bias_init", VInt 0);
      ("local_response_normalization", VBool false);
      ("convolution", Builtin "T.nnet.conv2d");
      ("activation", VStr "rectifier") ].

Record kwargs : Type := {
  inputs_hook : value;
  input_shape : value;
  filter_shape : value;
  convstride : value;
  padsize : value;
  group : value;
  poolsize : value;
  poolstride : value;
  bias_init : value;
  local_response_normalization : value;
  convolution : value;
  activation : value;
  params_hook : value;
  config : option dict;
  defaults : dict
}.

(** The attributes of the layer; [W], [b] of the plain layer and [W0], [b0],
    [W1], [b1] of the grouped one are the items of [params]. *)
Record t : Type := {
  self_input_shape : value;
  input : value;
  activation_func : value;
  self_convolution : value;
  self_filter_shape : value;
  self_convstride : value;
  self_padsize : value;
  self_poolsize : value;
  self_poolstride : value;
  channel : value;
  lrn : value;
  self_group : value;
  params : list value;
  output : value
}.

(** The state of [self] when build_computation_graph runs: every attribute
    but the output, which the method returns. *)
Definition build_computation_graph (self : t) : M value :=
  conv_out <-
    (if py_eq_int (self_group self) 1 then
       p <- unpack 2 (VList (params self)) ;;
       match p with
       | [W; b] =>
         conv_out <- py_convolve (self_convolution self) (input self) W
           [("subsample", VTuple [self_convstride self; self_convstride self]);
            ("border_mode", VTuple [self_padsize self; self_padsize self])] ;;
         ret (Add conv_out (DimShuffle b [None; Some 0; None; None]))
       | _ => raise ValueError
       end
     else
       p <- unpack 4 (VList (params self)) ;;
       match p with
       | [W0; b0; W1; b1] =>
         half <- halve (channel self) ;;
         c <- as_int half ;;
         conv_out0 <- py_convolve (self_convolution self)
           (Subscript (input self) [Full; Range None (Some c); Full; Full]) W0
           [("subsample", VTuple [self_convstride self; self_convstride self]);
            ("border_mode", VTuple [self_padsize self; self_padsize self])] ;;
         let conv_out0 := Add conv_out0 (DimShuffle b0 [None; Some 0; None; None]) in
         half <- halve (channel self) ;;
         c <- as_int half ;;
         conv_out1 <- py_convolve (self_convolution self)
           (Subscript (input self) [Full; Range (Some c) None; Full; Full]) W1
           [("subsample", VTuple [self_convstride self; self_convstride self]);
            ("border_mode", VTuple [self_padsize self; self_padsize self])] ;;
         let conv_out1 := Add conv_out1 (DimShuffle b1 [None; Some 0; None; None]) in
         ret (Concatenate [conv_out0; conv_out1] 1)
       | _ => raise ValueError
       end) ;;
  (* ReLu by default *)
  output <- py_call (activation_func self) [conv_out] [] ;;
  (* Pooling *)
  if negb (py_eq_int (self_poolsize self) 1) then
    if has_cudnn then
      py_call (Builtin "dnn.dnn_pool") [output]
        [("ws", VTuple [self_poolsize self; self_poolsize self]);
         ("stride", VTuple [self_poolstride self; self_poolstride self])]
    else
      py_call (Builtin "downsample.max_pool_2d") [output]
        [("ds", VTuple [self_poolsize self; self_poolsize self]);
         ("st", VTuple [self_poolstride self; self_poolstride self])]
  else ret output.

Definition __init__ (a : kwargs) : M t :=
  let args := Model_init (config a) (defaults a) in
  p <- (if truthy (inputs_hook a) then
          n <- py_len (inputs_hook a) ;;
          assert (n =? 2)%nat InputsHookPair ;;;
          h0 <- getitem (inputs_hook a) 0 ;;
          let input_shape := py_or (py_or h0 (input_shape a)) (get args "input_shape") in
          input <- getitem (inputs_hook a) 1 ;;
          ret (input_shape, input)
        else
          let input_shape := py_or (input_shape a) (get args "input_shape") in
          input <- ftensor4 "X" ;;
          ret (input_shape, input)) ;;
  let '(input_shape, input) := p in
  (* layer configuration *)
  let activation_name := py_or (activation a) (get args "activation") in
  activation_func <- (if is_basestring activation_name
                      then get_activation_function activation_name
                      else assert (callable activation_name) ActivationCallable ;;;
                           ret activation_name) ;;
  let convolution := py_or (convolution a) (get args "convolution") in
  let filter_shape := py_or (filter_shape a) (get args "filter_shape") in
  let convstride := py_or (convstride a) (get args "convstride") in
  let padsize := py_or (padsize a) (get args "padsize") in
  let poolsize := py_or (poolsize a) (get args "poolsize") in
  let poolstride := py_or (poolstride a) (get args "poolstride") in
  channel <- getitem input_shape 1 ;;
  let lrn := py_or (local_response_normalization a)
                   (get args "local_response_normalization") in
  let group := py_or (group a) (get args "group") in
  assert (py_eq_int group 1 || py_eq_int group 2) GroupOneOrTwo ;;;
  let filter_shape := asarray filter_shape in
  let input_shape := asarray input_shape in
  (* params *)
  q <- (if py_eq_int group 1 then
          p <- (if truthy (params_hook a) then
                  n <- py_len (params_hook a) ;;
                  assert (n =? 2)%nat (ParamsCount 2 n) ;;;
                  unpack 2 (params_hook a)
                else
                  W <- get_weights_gaussian filter_shape
                         (Some (VInt 0)) (Some (VFloat (1 # 100))) "W" ;;
                  f0 <- getitem filter_shape 0 ;;
                  b <- get_bias f0 "b" (Some (bias_init a)) ;;
                  ret [W; b]) ;;
          match p with
          | [W; b] => ret (filter_shape, input_shape, [W; b])
          | _ => raise ValueError
          end
        else
          f0 <- getitem filter_shape 0 ;;
          h <- halve f0 ;;
          filter_shape <- setitem filter_shape 0 h ;;
          f1 <- getitem filter_shape 1 ;;
          h <- halve f1 ;;
          filter_shape <- setitem filter_shape 1 h ;;
          i0 <- getitem input_shape 0 ;;
          h <- halve i0 ;;
          input_shape <- setitem input_shape 0 h ;;
          i1 <- getitem input_shape 1 ;;
          h <- halve i1 ;;
          input_shape <- setitem input_shape 1 h ;;
          p <- (if truthy (params_hook a) then
                  n <- py_len (params_hook a) ;;
                  assert (n =? 4)%nat (ParamsCount 4 n) ;;;
                  unpack 4 (params_hook a)
                else
                  W0 <- get_weights_gaussian filter_shape None None "W0" ;;
                  W1 <- get_weights_gaussian filter_shape None None "W1" ;;
                  f0 <- getitem filter_shape 0 ;;
                  b0 <- get_bias f0 "b0" (Some (bias_init a)) ;;
                  f0 <- getitem filter_shape 0 ;;
                  b1 <- get_bias f0 "b1" (Some (bias_init a)) ;;
                  ret [W0; W1; b0; b1]) ;;
          match p with
          | [W0; W1; b0; b1] => ret (filter_shape, input_shape, [W0; b0; W1; b1])
          | _ => raise ValueError
          end) ;;
  let '(filter_shape, input_shape, params) := q in
  let self :=
    {| self_input_shape := input_shape; input := input;
       activation_func := activation_func; self_convolution := convolution;
       self_filter_shape := filter_shape; self_convstride := convstride;
       self_padsize := padsize; self_poolsize := poolsize;
       self_poolstride := poolstride; channel := channel; lrn := lrn;
       self_group := group; params := params; output := VNone |} in
  (* build appropriate graph for conv. version *)
  output <- build_computation_graph self ;;
  (* Local Response Normalization (for AlexNet) *)
  output <- (if truthy lrn
             then py_call (Builtin "cross_channel_normalization_bc01") [output] []
             else ret output) ;;
  ret {| self_input_shape := input_shape; input := input;
         activation_func := activation_func; self_convolution := convolution;
         self_filter_shape := filter_shape; self_convstride := convstride;
         self_padsize := padsize; self_poolsize := poolsize;
         self_poolstride := poolstride; channel := channel; lrn := lrn;
         self_group := group; params := params; output := output |}.

Definition get_inputs (self : t) : list value := [input self].
Definition get_outputs (self : t) : value := output self.
Definition get_params (self : t) : list value := params self.

(** The shapes the call asks for: what lines 365 or 368 and line 382
    resolve, before the constructor turns them into arrays. *)
Definition requested_input_shape (a : kwargs) : value :=
  let args := Model_init (config a) (defaults a) in
  if truthy (inputs_hook a) then
    match items_of (inputs_hook a) with
    | Some (h0 :: _) => py_or (py_or h0 (input_shape a)) (get args "input_shape")
    | _ => VNone
    end
  else py_or (input_shape a) (get args "input_shape").

Definition requested_filter_shape (a : kwargs) : value :=
  py_or (filter_shape a) (get (Model_init (config a) (defaults a)) "filter_shape").

(** The same call with another [params_hook]. *)
Definition with_params_hook (a : kwargs) (v : value) : kwargs :=
  {| inputs_hook := inputs_hook a; input_shape := input_shape a;
     filter_shape := filter_shape a; convstride := convstride a;
     padsize := padsize a; group := group a; poolsize := poolsize a;
     poolstride := poolstride a; bias_init := bias_init a;
     local_response_normalization := local_response_normalization a;
     convolution := convolution a; activation := activation a;
     params_hook := v; config := config a; defaults := defaults a |}.
End ConvPoolLayer.
End ConvPoolLayer.


(** ** The layer contract

    Every model answers get_inputs, get_outputs and get_params; a call of a
    constructor names the class and gives its keyword arguments. *)

Inductive model : Type :=
| IsDAE (self : DAE.t)
| IsConv1D (self : Conv1D.t)
| IsConv2D (self : Conv2D.t)
| IsConvPoolLayer (self : ConvPoolLayer.t).

Inductive call : Type :=
| NewDAE (a : DAE.kwargs)
| NewConv1D (a : Conv1D.kwargs)
| NewConv2D (a : Conv2D.kwargs)
| NewConvPoolLayer (a : ConvPoolLayer.kwargs).

Definition get_inputs (m : model) : list value :=
  match m with
  | IsDAE self => DAE.get_inputs self
  | IsConv1D self => Conv1D.get_inputs self
  | IsConv2D self => Conv2D.get_inputs self
  | IsConvPoolLayer self => ConvPoolLayer.get_inputs self
  end.

Definition get_outputs (m : model) : value :=
  match m with
  | IsDAE self => DAE.get_outputs self
  | IsConv1D self => Conv1D.get_outputs self
  | IsConv2D self => Conv2D.get_outputs self
  | IsConvPoolLayer self => ConvPoolLayer.get_outputs self
  end.

Definition get_params (m : model) : list value :=
  match m with
  | IsDAE self => DAE.get_params self
  | IsConv1D self => Conv1D.get_params self
  | IsConv2D self => Conv2D.get_params self
  | IsConvPoolLayer self => ConvPoolLayer.get_params self
  end.

Definition inputs_hook_of (c : call) : value :=
  match c with
  | NewDAE a => DAE.inputs_hook a
  | NewConv1D a => Conv1D.inputs_hook a
  | NewConv2D a => Conv2D.inputs_hook a
  | NewConvPoolLayer a => ConvPoolLayer.inputs_hook a
  end.

Definition params_hook_of (c : call) : value :=
  match c with
  | NewDAE a => DAE.params_hook a
  | NewConv1D a => Conv1D.params_hook a
  | NewConv2D a => Conv2D.params_hook a
  | NewConvPoolLayer a => ConvPoolLayer.params_hook a
  end.

Definition with_params_hook (c : call) (v : value) : call :=
  match c with
  | NewDAE a => NewDAE (DAE.with_params_hook a v)
  | NewConv1D a => NewConv1D (Conv1D.with_params_hook a v)
  | NewConv2D a => NewConv2D (Conv2D.with_params_hook a v)
  | NewConvPoolLayer a => NewConvPoolLayer (ConvPoolLayer.with_params_hook a v)
  end.

(** The group a ConvPoolLayer call resolves (line 396). *)
Definition resolved_group (a : ConvPoolLayer.kwargs) : value :=
  py_or (ConvPoolLayer.group a)
        (get (Model_init (ConvPoolLayer.config a) (ConvPoolLayer.defaults a)) "group").

(** The number of parameters the class of the call takes: the length its
    constructor asserts of a params_hook. *)
Definition required_params (c : call) : nat :=
  match c with
  | NewDAE _ => 3
  | NewConv1D _ | NewConv2D _ => 2
  | NewConvPoolLayer a => if py_eq_int (resolved_group a) 1 then 2 else 4
  end%nat.

Section Construct.
Context `{Registry}.

Definition construct (c : call) : M model :=
  match c with
  | NewDAE a => self <- DAE.__init__ a ;; ret (IsDAE self)
  | NewConv1D a => self <- Conv1D.__init__ a ;; ret (IsConv1D self)
  | NewConv2D a => self <- Conv2D.__init__ a ;; ret (IsConv2D self)
  | NewConvPoolLayer a => self <- ConvPoolLayer.__init__ a ;; ret (IsConvPoolLayer self)
  end.
End Construct.

(** ** Reading a graph *)

(** Whether salt-and-pepper corruption occurs in the graph of [v]. *)
Fixpoint corrupts (v : value) : bool :=
  match v with
  | SaltAndPepper _ _ => true
  | VTuple l | VList l | NdArray l => existsb corrupts l
  | NdScalar a | Transpose a | DimShuffle a _ | Subscript a _ => corrupts a
  | Dot a b | Add a b => corrupts a || corrupts b
  | Concatenate l _ => existsb corrupts l
  | Convolve f img kerns kw =>
      corrupts f || corrupts img || corrupts kerns
      || existsb (fun p => corrupts (snd p)) kw
  | Call f args kw =>
      corrupts f || existsb corrupts args || existsb (fun p => corrupts (snd p)) kw
  | Function i o => existsb corrupts i || corrupts o
  | _ => false
  end.

(** Modelled from the spec: the extents the external tensor engine gives its
    results, which the sources only call.  Section 4.4: a weight tensor is
    shaped (num_filters, num_input_channels, kernel extent...), the output of
    a convolution has one channel per filter and the bias is broadcast across
    them; [valid] shrinks a convolved axis by kernel extent - 1 and [full]
    pads kernel extent - 1 zeros on each side before convolving (stride 1). *)
Definition num_filters_of (kerns : value) : option Z :=
  match kerns with
  | Shared _ _ shape _ =>
      match items_of shape with
      | Some (VInt f :: _) => Some f
      | _ => None
      end
  | _ => None
  end.

Definition valid_extent (n k : Z) : Z := n - (k - 1).
Definition full_extent (n k : Z) : Z := valid_extent (n + 2 * (k - 1)) k.

(** The extent of [x[lo:hi]] along an axis of extent [len], for bounds that
    are not negative. *)
Definition slice_extent (len lo hi : Z) : Z :=
  Z.max 0 (Z.min hi len - Z.min lo len).

(** The extent of the channel axis (axis 1) of a node in the bc01 layout:
    elementwise functions, pooling and normalization keep it, concatenation
    along axis 1 adds the extents up. *)
Fixpoint channels (v : value) : option Z :=
  match v with
  | Convolve _ _ kerns _ => num_filters_of kerns
  | Add a _ => channels a
  | Call _ [x] _ => channels x
  | Concatenate parts axis =>
      if axis =? 1 then
        (fix total (l : list value) : option Z :=
           match l with
           | [] => Some 0
           | p :: r =>
               match channels p, total r with
               | Some a, Some b => Some (a + b)
               | _, _ => None
               end
           end) parts
      else None
  | _ => None
  end.

(** The graph section 4.5 describes for a grouped layer: the input split at
    [channel / 2] along the channel axis, one convolution with its own weights
    and bias on each half, the two results concatenated along the channel
    axis; then the activation, the pooling unless the pool size is 1, and the
    normalization when asked for. *)
Definition split_convolution `{Registry} (self : ConvPoolLayer.t) (channel : Z)
    (W0 b0 W1 b1 : value) : value :=
  let conv := ConvPoolLayer.self_convolution self in
  let stride := ConvPoolLayer.self_convstride self in
  let pad := ConvPoolLayer.self_padsize self in
  let size := ConvPoolLayer.self_poolsize self in
  let step := ConvPoolLayer.self_poolstride self in
  let kw := [("subsample", VTuple [stride; stride]); ("border_mode", VTuple [pad; pad])] in
  let lower_half :=
    Subscript (ConvPoolLayer.input self) [Full; Range None (Some (channel / 2)); Full; Full] in
  let upper_half :=
    Subscript (ConvPoolLayer.input self) [Full; Range (Some (channel / 2)) None; Full; Full] in
  let conv_out :=
    Concatenate
      [ Add (Convolve conv lower_half W0 kw) (DimShuffle b0 [None; Some 0; None; None]);
        Add (Convolve conv upper_half W1 kw) (DimShuffle b1 [None; Some 0; None; None]) ]
      1 in
  let activated := Call (ConvPoolLayer.activation_func self) [conv_out] [] in
  let pooled :=
    if negb (py_eq_int size 1) then
      if has_cudnn
      then Call (Builtin "dnn.dnn_pool") [activated]
             [("ws", VTuple [size; size]); ("stride", VTuple [step; step])]
      else Call (Builtin "downsample.max_pool_2d") [activated]
             [("ds", VTuple [size; size]); ("st", VTuple [step; step])]
    else activated in
  if truthy (ConvPoolLayer.lrn self)
  then Call (Builtin "cross_channel_normalization_bc01") [pooled] []
  else pooled.

(** ** A registry for running the constructors

    Modelled from the spec: section 6 names tanh, sigmoid and rectifier among
    the activation functions and binary cross-entropy among the costs. *)
Definition registry : Registry :=
  {| activation_known := fun s => bool_decide (s ∈ ["tanh"; "sigmoid"; "rectifier"]);
     cost_known := fun s => bool_decide (s ∈ ["binary_crossentropy"]);
     has_cudnn := false |}.

(** ** Calls to run *)

(** A symbolic input and four parameter tensors made by the caller, and the
    store that holds them. *)
Definition X : value := Placeholder 0 4 "X".
Definition P (id : nat) : value := Shared id "P" VNone (Uniform None).
Definition caller_store : store := [X; P 1; P 2; P 3; P 4].

Definition shape (l : list Z) : value := VTuple (map VInt l).

(** [DenoisingAutoencoder(inputs_hook=i, hiddens_hook=h, params_hook=p,
    corruption_level=c)] *)
Definition dae_call (i h p c : value) : DAE.kwargs :=
  {| DAE.config := None; DAE.defaults := DAE._defaults;
     DAE.inputs_hook := i; DAE.hiddens_hook := h; DAE.params_hook := p;
     DAE.input_size := VNone; DAE.hidden_size := VNone; DAE.corruption_level := c;
     DAE.hidden_activation := VNone; DAE.visible_activation := VNone;
     DAE.cost_function := VNone |}.

(** [Conv1D(inputs_hook=((2, 3, 10), X), filter_shape=(4, 3, 5), stride=1,
    params_hook=p, weights_init=w, border_mode=b, config=c)] *)
Definition conv1d_call (p w b : value) (c : option dict) : Conv1D.kwargs :=
  {| Conv1D.inputs_hook := VTuple [shape [2; 3; 10]; X]; Conv1D.params_hook := p;
     Conv1D.input_shape := VNone; Conv1D.filter_shape := shape [4; 3; 5];
     Conv1D.stride := VInt 1; Conv1D.weights_init := w;
     Conv1D.weights_interval := VNone; Conv1D.weights_mean := VNone;
     Conv1D.weights_std := VNone; Conv1D.bias_init := VNone;
     Conv1D.border_mode := b; Conv1D.activation := VNone;
     Conv1D.convolution := VNone; Conv1D.config := c;
     Conv1D.defaults := Conv1D.defaults_ |}.

(** [Conv2D(inputs_hook=((2, 3, 8, 8), X), filter_shape=(4, 3, 5, 5),
    strides=(1, 1), params_hook=p, weights_init=w, border_mode=b, config=c)] *)
Definition conv2d_call (p w b : value) (c : option dict) : Conv2D.kwargs :=
  {| Conv2D.inputs_hook := VTuple [shape [2; 3; 8; 8]; X]; Conv2D.params_hook := p;
     Conv2D.input_shape := VNone; Conv2D.filter_shape := shape [4; 3; 5; 5];
     Conv2D.strides := shape [1; 1]; Conv2D.weights_init := w;
     Conv2D.weights_interval := VNone; Conv2D.weights_mean := VNone;
     Conv2D.weights_std := VNone; Conv2D.bias_init := VNone;
     Conv2D.border_mode := b; Conv2D.activation := VNone;
     Conv2D.convolution := VNone; Conv2D.config := c;
     Conv2D.defaults := Conv2D.defaults_ |}.

(** [ConvPoolLayer(inputs_hook=((2, 4, 8, 8), X), filter_shape=f, group=g,
    params_hook=p)] *)
Definition grouped_call (f : list Z) (g p : value) : ConvPoolLayer.kwargs :=
  {| ConvPoolLayer.inputs_hook := VTuple [shape [2; 4; 8; 8]; X];
     ConvPoolLayer.input_shape := VNone;
     ConvPoolLayer.filter_shape := shape f;
     ConvPoolLayer.convstride := VNone; ConvPoolLayer.padsize := VNone;
     ConvPoolLayer.group := g; ConvPoolLayer.poolsize := VNone;
     ConvPoolLayer.poolstride := VNone; ConvPoolLayer.bias_init := VNone;
     ConvPoolLayer.local_response_normalization := VNone;
     ConvPoolLayer.convolution := VNone; ConvPoolLayer.activation := VNone;
     ConvPoolLayer.params_hook := p; ConvPoolLayer.config := None;
     ConvPoolLayer.defaults := ConvPoolLayer.defaults_ |}.


(** ** The layers side by side *)

(** The rank of the symbolic input a class makes for itself: T.fmatrix,
    T.ftensor3, T.ftensor4. *)
Definition input_rank (c : call) : nat :=
  match c with
  | NewDAE _ => 2
  | NewConv1D _ => 3
  | NewConv2D _ | NewConvPoolLayer _ => 4
  end%nat.

(** Whether the class asserts that its inputs_hook has two items (lines 89,
    213 and 364); the autoencoder does not. *)
Definition checks_inputs_hook (c : call) : bool :=
  match c with
  | NewDAE _ => false
  | _ => true
  end.

(** Whether the call takes the grouped path of ConvPoolLayer (the else branch
    of line 408). *)
Definition grouped (c : call) : bool :=
  match c with
  | NewConvPoolLayer a => negb (py_eq_int (resolved_group a) 1)
  | _ => false
  end.

(** The input shape lines 90 and 94 (214 and 218) resolve: the shape of the
    hook, else the argument, else the configured one. *)
Definition hooked_input_shape (hook explicit : value) (args : dict) : value :=
  if truthy hook then
    match items_of hook with
    | Some (h0 :: _) => py_or (py_or h0 explicit) (get args "input_shape")
    | _ => VNone
    end
  else py_or explicit (get args "input_shape").

(** The size lines 47 to 55 of the tutorial resolve: item 0 of the hook when
    there is one, else the argument, else the configured one. *)
Definition hooked_size (hook explicit : value) (args : dict) (name : string) : value :=
  if truthy hook then
    match items_of hook with
    | Some (h0 :: _) => h0
    | _ => VNone
    end
  else py_or explicit (get args name).

(** The same call with another [inputs_hook]. *)
Definition dae_with_inputs_hook (a : DAE.kwargs) (v : value) : DAE.kwargs :=
  {| DAE.config := DAE.config a; DAE.defaults := DAE.defaults a;
     DAE.inputs_hook := v; DAE.hiddens_hook := DAE.hiddens_hook a;
     DAE.params_hook := DAE.params_hook a; DAE.input_size := DAE.input_size a;
     DAE.hidden_size := DAE.hidden_size a;
     DAE.corruption_level := DAE.corruption_level a;
     DAE.hidden_activation := DAE.hidden_activation a;
     DAE.visible_activation := DAE.visible_activation a;
     DAE.cost_function := DAE.cost_function a |}.

(** The same call with [border_mode=v]. *)
Definition conv1d_with_border_mode (a : Conv1D.kwargs) (v : value) : Conv1D.kwargs :=
  {| Conv1D.inputs_hook := Conv1D.inputs_hook a; Conv1D.params_hook := Conv1D.params_hook a;
     Conv1D.input_shape := Conv1D.input_shape a; Conv1D.filter_shape := Conv1D.filter_shape a;
     Conv1D.stride := Conv1D.stride a; Conv1D.weights_init := Conv1D.weights_init a;
     Conv1D.weights_interval := Conv1D.weights_interval a;
     Conv1D.weights_mean := Conv1D.weights_mean a;
     Conv1D.weights_std := Conv1D.weights_std a; Conv1D.bias_init := Conv1D.bias_init a;
     Conv1D.border_mode := v; Conv1D.activation := Conv1D.activation a;
     Conv1D.convolution := Conv1D.convolution a; Conv1D.config := Conv1D.config a;
     Conv1D.defaults := Conv1D.defaults a |}.

Definition conv2d_with_border_mode (a : Conv2D.kwargs) (v : value) : Conv2D.kwargs :=
  {| Conv2D.inputs_hook := Conv2D.inputs_hook a; Conv2D.params_hook := Conv2D.params_hook a;
     Conv2D.input_shape := Conv2D.input_shape a; Conv2D.filter_shape := Conv2D.filter_shape a;
     Conv2D.strides := Conv2D.strides a; Conv2D.weights_init := Conv2D.weights_init a;
     Conv2D.weights_interval := Conv2D.weights_interval a;
     Conv2D.weights_mean := Conv2D.weights_mean a;
     Conv2D.weights_std := Conv2D.weights_std a; Conv2D.bias_init := Conv2D.bias_init a;
     Conv2D.border_mode := v; Conv2D.activation := Conv2D.activation a;
     Conv2D.convolution := Conv2D.convolution a; Conv2D.config := Conv2D.config a;
     Conv2D.defaults := Conv2D.defaults a |}.

(** The graph build_computation_graph and the end of the constructor give a
    layer that is not grouped (lines 446 to 451, 469 to 483, 440 and 441): one
    convolution of the whole input, the bias, the activation, the pooling
    unless the pool size is 1, and the normalization when asked for. *)
Definition plain_convolution `{Registry} (self : ConvPoolLayer.t) (W b : value) : value :=
  let conv := ConvPoolLayer.self_convolution self in
  let stride := ConvPoolLayer.self_convstride self in
  let pad := ConvPoolLayer.self_padsize self in
  let size := ConvPoolLayer.self_poolsize self in
  let step := ConvPoolLayer.self_poolstride self in
  let conv_out :=
    Add (Convolve conv (ConvPoolLayer.input self) W
           [("subsample", VTuple [stride; stride]); ("border_mode", VTuple [pad; pad])])
        (DimShuffle b [None; Some 0; None; None]) in
  let activated := Call (ConvPoolLayer.activation_func self) [conv_out] [] in
  let pooled :=
    if negb (py_eq_int size 1) then
      if has_cudnn
      then Call (Builtin "dnn.dnn_pool") [activated]
             [("ws", VTuple [size; size]); ("stride", VTuple [step; step])]
      else Call (Builtin "downsample.max_pool_2d") [activated]
             [("ds", VTuple [size; size]); ("st", VTuple [step; step])]
    else activated in
  if truthy (ConvPoolLayer.lrn self)
  then Call (Builtin "cross_channel_normalization_bc01") [pooled] []
  else pooled.

(** The options of a call of Conv1D or Conv2D as lines 99 to 117 (223 to 241)
    resolve them; [configured_weights_init] is the entry of the merged
    configuration, which line 132 (256) reads again. *)
Record options : Type := {
  opt_activation : value;
  opt_filter_shape : value;
  opt_border_mode : value;
  opt_convolution : value;
  opt_weights_init : value;
  opt_weights_interval : value;
  opt_weights_mean : value;
  opt_weights_std : value;
  configured_weights_init : value;
  passed_bias_init : value
}.

Definition options_of (c : call) : option options :=
  match c with
  | NewConv1D a =>
      let args := Model_init (Conv1D.config a) (Conv1D.defaults a) in
      Some {| opt_activation := py_or (Conv1D.activation a) (get args "activation");
              opt_filter_shape := py_or (Conv1D.filter_shape a) (get args "filter_shape");
              opt_border_mode := py_or (Conv1D.border_mode a) (get args "border_mode");
              opt_convolution := py_or (Conv1D.convolution a) (get args "convolution");
              opt_weights_init := py_or (Conv1D.weights_init a) (get args "weights_init");
              opt_weights_interval :=
                py_or (Conv1D.weights_interval a) (get args "weights_interval");
              opt_weights_mean := py_or (Conv1D.weights_mean a) (get args "weights_mean");
              opt_weights_std := py_or (Conv1D.weights_std a) (get args "weights_std");
              configured_weights_init := get args "weights_init";
              passed_bias_init := Conv1D.bias_init a |}
  | NewConv2D a =>
      let args := Model_init (Conv2D.config a) (Conv2D.defaults a) in
      Some {| opt_activation := py_or (Conv2D.activation a) (get args "activation");
              opt_filter_shape := py_or (Conv2D.filter_shape a) (get args "filter_shape");
              opt_border_mode := py_or (Conv2D.border_mode a) (get args "border_mode");
              opt_convolution := py_or (Conv2D.convolution a) (get args "convolution");
              opt_weights_init := py_or (Conv2D.weights_init a) (get args "weights_init");
              opt_weights_interval :=
                py_or (Conv2D.weights_interval a) (get args "weights_interval");
              opt_weights_mean := py_or (Conv2D.weights_mean a) (get args "weights_mean");
              opt_weights_std := py_or (Conv2D.weights_std a) (get args "weights_std");
              configured_weights_init := get args "weights_init";
              passed_bias_init := Conv2D.bias_init a |}
  | _ => None
  end.

(** The same call with [border_mode=v]. *)
Definition with_border_mode (c : call) (v : value) : call :=
  match c with
  | NewConv1D a => NewConv1D (conv1d_with_border_mode a v)
  | NewConv2D a => NewConv2D (conv2d_with_border_mode a v)
  | _ => c
  end.

(** The activation a convolution layer resolves (lines 99, 223 and 375); the
    autoencoder has two, and takes both by name only. *)
Definition activation_of (c : call) : option value :=
  match c with
  | NewDAE _ => None
  | NewConv1D a =>
      Some (py_or (Conv1D.activation a)
              (get (Model_init (Conv1D.config a) (Conv1D.defaults a)) "activation"))
  | NewConv2D a =>
      Some (py_or (Conv2D.activation a)
              (get (Model_init (Conv2D.config a) (Conv2D.defaults a)) "activation"))
  | NewConvPoolLayer a =>
      Some (py_or (ConvPoolLayer.activation a)
              (get (Model_init (ConvPoolLayer.config a) (ConvPoolLayer.defaults a))
                 "activation"))
  end.

(** [Conv1D(inputs_hook=hook, filter_shape=(4, 3, 5), stride=1,
    activation=act)] *)
Definition conv1d_on (hook act : value) : Conv1D.kwargs :=
  {| Conv1D.inputs_hook := hook; Conv1D.params_hook := VNone;
     Conv1D.input_shape := VNone; Conv1D.filter_shape := shape [4; 3; 5];
     Conv1D.stride := VInt 1; Conv1D.weights_init := VNone;
     Conv1D.weights_interval := VNone; Conv1D.weights_mean := VNone;
     Conv1D.weights_std := VNone; Conv1D.bias_init := VNone;
     Conv1D.border_mode := VNone; Conv1D.activation := act;
     Conv1D.convolution := VNone; Conv1D.config := None;
     Conv1D.defaults := Conv1D.defaults_ |}.

(** A registry that knows no name, on a machine with cuDNN. *)
Definition bare_registry : Registry :=
  {| activation_known := fun _ => false;
     cost_known := fun _ => false;
     has_cudnn := true |}.

(** ** Reasoning about constructions *)

Lemma bind_Returned {A B} (m : M A) (k : A -> M B) (s s' : store) (b : B) :
  bind m k s = Returned b s' ->
  exists a s1, m s = Returned a s1 /\ k a s1 = Returned b s'.
Proof.
  unfold bind. destruct (m s) as [e | a s1]; [discriminate |]. eauto.
Qed.

Lemma bind_Raised {A B} (m : M A) (k : A -> M B) (s : store) (e : exn) :
  m s = Raised e -> bind m k s = Raised e.
Proof. unfold bind. intros ->. reflexivity. Qed.

Lemma bind_assoc {A B C} (m : M A) (k1 : A -> M B) (k2 : B -> M C) (s : store) :
  bind (bind m k1) k2 s = bind m (fun a => bind (k1 a) k2) s.
Proof. unfold bind. destruct (m s); reflexivity. Qed.

Lemma bind_step {A B} (m : M A) (k : A -> M B) (s s1 : store) (a : A) :
  m s = Returned a s1 -> bind m k s = k a s1.
Proof. unfold bind. intros ->. reflexivity. Qed.

Ltac unfold_prims H :=
  cbv beta delta [bind ret raise assert py_len getitem getslice setitem as_int
    halve py_lower unpack py_call py_convolve get_activation_function
    get_cost_function fmatrix ftensor3 ftensor4 get_weights_uniform
    get_weights_gaussian get_bias alloc] in H.

(** Case analysis on the innermost test of a computation that returned. *)
Ltac split_returned H :=
  match type of H with
  | context [match ?x with _ => _ end] =>
      lazymatch x with
      | context [match _ with _ => _ end] => fail
      | _ => destruct x eqn:?; try discriminate H
      end
  end.

Ltac invert_returned H :=
  unfold_prims H; repeat split_returned H;
  try (injection H as <- <-).

Lemma placeholders_app (s l : store) :
  forallb is_shared l = true -> placeholders (s ++ l) = placeholders s.
Proof.
  intros Hl. unfold placeholders. rewrite List.filter_app.
  replace (List.filter is_placeholder l) with (@nil value); [apply app_nil_r |].
  induction l as [| v l IH]; [reflexivity |].
  simpl in Hl. apply andb_prop in Hl as [Hv Hl].
  simpl. destruct v; try discriminate Hv. simpl. auto.
Qed.

Lemma shareds_app (s l : store) :
  forallb is_placeholder l = true -> shareds (s ++ l) = shareds s.
Proof.
  intros Hl. unfold shareds. rewrite List.filter_app.
  replace (List.filter is_shared l) with (@nil value); [apply app_nil_r |].
  induction l as [| v l IH]; [reflexivity |].
  simpl in Hl. apply andb_prop in Hl as [Hv Hl].
  simpl. destruct v; try discriminate Hv. simpl. auto.
Qed.

(** The store after some allocations, as an extension of the one before. *)
Ltac store_grows :=
  repeat rewrite <- app_assoc; simpl;
  first [ reflexivity
        | symmetry; apply app_nil_r
        | apply placeholders_app; reflexivity
        | apply shareds_app; reflexivity ].

(** *** One statement at a time *)

(** [step H] takes the first statement [m] off a computation that returned:
    [E] records what [m] returned and [H] goes on with the rest. *)
Ltac step_any H :=
  cbv beta iota zeta delta [ret raise] in H;
  lazymatch type of H with
  | bind _ _ _ = Returned _ _ =>
      let E := fresh "E" in
      apply bind_Returned in H as (? & ? & E & H)
  | Returned _ _ = Returned _ _ => injection H; clear H; intros; subst
  | Raised _ = Returned _ _ => discriminate H
  | (match ?x with _ => _ end) _ = Returned _ _ => destruct x; try discriminate H
  end.

Tactic Notation "step" hyp(H) := step_any H.

(** The same, naming what the statement returned. *)
Tactic Notation "step" hyp(H) "as" ident(a) ident(s) ident(E) :=
  cbv beta iota zeta delta [ret raise] in H;
  apply bind_Returned in H as (a & s & E & H).

(** [lockstep H] takes the first statement off the computation of the goal
    and off the computation [H] says returned, when it is the same one. *)
Ltac lockstep H :=
  cbv beta iota zeta delta [ret raise] in H;
  cbv beta iota zeta delta [ret raise];
  lazymatch type of H with
  | bind _ _ _ = Returned _ _ =>
      let E := fresh "E" in
      apply bind_Returned in H as (? & ? & E & H);
      rewrite (bind_step _ _ _ _ _ E)
  | (match ?x with _ => _ end) _ = Returned _ _ => destruct x; try discriminate H
  end.

(** [evaluate H] runs the statements of a computation whose operands are
    known. *)
Ltac evaluate H :=
  cbn
    [bind ret raise assert py_len getitem getslice setitem as_int halve
     py_lower unpack py_call py_convolve items_of callable truthy
     get_weights_uniform get_weights_gaussian get_bias alloc
     fmatrix ftensor3 ftensor4
     map length Nat.ltb Nat.leb Nat.eqb lookup list_lookup insert list_insert] in H.

(** *** What a computation does to the store *)

Lemma pure_preserves {X A} (f : store -> X) (m : M A) : pure m -> preserves f m.
Proof. intros Hm s a s' E. apply Hm in E. congruence. Qed.

Lemma preserves_bind {X A B} (f : store -> X) (m : M A) (k : A -> M B) :
  preserves f m -> (forall a, preserves f (k a)) -> preserves f (bind m k).
Proof.
  intros Hm Hk s b s' E. apply bind_Returned in E as (a & s1 & E1 & E2).
  apply Hm in E1. apply Hk in E2. congruence.
Qed.

Lemma preserves_ret {X A} (f : store -> X) (a : A) : preserves f (ret a).
Proof. intros s b s' E. injection E as _ <-. reflexivity. Qed.

Lemma preserves_raise {X A} (f : store -> X) (e : exn) : preserves f (@raise A e).
Proof. intros s b s' E. discriminate E. Qed.

Lemma alloc_shared_preserves_placeholders (mk : nat -> value) :
  (forall id, is_shared (mk id) = true) -> preserves placeholders (alloc mk).
Proof.
  intros Hmk s a s' E. injection E as _ <-.
  apply placeholders_app. simpl. rewrite Hmk. reflexivity.
Qed.

Lemma alloc_placeholder_preserves_shareds (mk : nat -> value) :
  (forall id, is_placeholder (mk id) = true) -> preserves shareds (alloc mk).
Proof.
  intros Hmk s a s' E. injection E as _ <-.
  apply shareds_app. simpl. rewrite Hmk. reflexivity.
Qed.

Ltac prove_pure :=
  let E := fresh "E" in
  intros ? ? ? E; invert_returned E; reflexivity.

Lemma pure_assert c a : pure (assert c a).
Proof. prove_pure. Qed.
Lemma pure_py_len v : pure (py_len v).
Proof. prove_pure. Qed.
Lemma pure_getitem v i : pure (getitem v i).
Proof. prove_pure. Qed.
Lemma pure_getslice v lo hi : pure (getslice v lo hi).
Proof. prove_pure. Qed.
Lemma pure_setitem v i x : pure (setitem v i x).
Proof. prove_pure. Qed.
Lemma pure_as_int v : pure (as_int v).
Proof. prove_pure. Qed.
Lemma pure_halve v : pure (halve v).
Proof. prove_pure. Qed.
Lemma pure_py_lower v : pure (py_lower v).
Proof. prove_pure. Qed.
Lemma pure_unpack n v : pure (unpack n v).
Proof. prove_pure. Qed.
Lemma pure_py_call f args kwargs : pure (py_call f args kwargs).
Proof. prove_pure. Qed.
Lemma pure_py_convolve f img kerns kwargs : pure (py_convolve f img kerns kwargs).
Proof. prove_pure. Qed.
Lemma pure_get_activation_function `{Registry} name : pure (get_activation_function name).
Proof. prove_pure. Qed.
Lemma pure_get_cost_function `{Registry} name : pure (get_cost_function name).
Proof. prove_pure. Qed.

Lemma placeholders_get_weights_uniform shape interval name :
  preserves placeholders (get_weights_uniform shape interval name).
Proof. apply alloc_shared_preserves_placeholders. reflexivity. Qed.
Lemma placeholders_get_weights_gaussian shape mean std name :
  preserves placeholders (get_weights_gaussian shape mean std name).
Proof. apply alloc_shared_preserves_placeholders. reflexivity. Qed.
Lemma placeholders_get_bias shape name init :
  preserves placeholders (get_bias shape name init).
Proof. apply alloc_shared_preserves_placeholders. reflexivity. Qed.

Lemma shareds_fmatrix name : preserves shareds (fmatrix name).
Proof. apply alloc_placeholder_preserves_shareds. reflexivity. Qed.
Lemma shareds_ftensor3 name : preserves shareds (ftensor3 name).
Proof. apply alloc_placeholder_preserves_shareds. reflexivity. Qed.
Lemma shareds_ftensor4 name : preserves shareds (ftensor4 name).
Proof. apply alloc_placeholder_preserves_shareds. reflexivity. Qed.

Create HintDb pure_db.
#[export] Hint Resolve pure_assert pure_py_len pure_getitem pure_getslice pure_setitem
  pure_as_int pure_halve pure_py_lower pure_unpack pure_py_call pure_py_convolve
  pure_get_activation_function pure_get_cost_function : pure_db.

Create HintDb store_db.
#[export] Hint Resolve placeholders_get_weights_uniform placeholders_get_weights_gaussian
  placeholders_get_bias shareds_fmatrix shareds_ftensor3 shareds_ftensor4 : store_db.

(** Walks a computation statement by statement. *)
Ltac preserved :=
  cbv zeta;
  repeat first
    [ apply preserves_ret
    | apply preserves_raise
    | apply preserves_bind; [| intros ?]
    | apply pure_preserves; solve [auto with pure_db]
    | solve [auto with store_db]
    | match goal with
      | |- preserves _ (match ?x with _ => _ end) => destruct x
      end ].

(** Evaluate what the case analysis has made concrete. *)
Ltac tidy := repeat (progress (cbn in *; simplify_eq)).

Section DAE_facts.
Context `{Registry}.

(** C5: the training path of a constructed denoising autoencoder.  The
    training hiddens are hidden_activation(corrupted_input . W + b1), the
    reconstruction is visible_activation(hiddens . W^T + b0) with the
    transpose of the one weight matrix of get_params, and get_train_cost is
    the configured cost function applied to that reconstruction and to the
    uncorrupted input. *)
Theorem DAE_training_path (a : DAE.kwargs) (s s' : store) (self : DAE.t) :
  DAE.__init__ a s = Returned self s' ->
  exists x W b0 b1 ha va cf,
    DAE.get_inputs self = [x] /\
    DAE.get_params self = [W; b0; b1] /\
    DAE.resolved a (DAE.hidden_activation a) "hidden_activation" = VStr ha /\
    DAE.resolved a (DAE.visible_activation a) "visible_activation" = VStr va /\
    DAE.resolved a (DAE.cost_function a) "cost_function" = VStr cf /\
    let corrupted_input :=
      SaltAndPepper x (DAE.resolved a (DAE.corruption_level a) "corruption_level") in
    let hiddens := Call (Activation ha) [Add (Dot corrupted_input W) b1] [] in
    let reconstruction := Call (Activation va) [Add (Dot hiddens (Transpose W)) b0] [] in
    DAE.get_train_cost self =
      Call (CostFunction cf) [] [("output", reconstruction); ("target", x)].
Proof.
  unfold DAE.__init__, DAE.resolved. intros Hinit.
  invert_returned Hinit.
  all: repeat eexists; reflexivity.
Qed.

(** C6: a hiddens_hook changes the prediction path only.  The training cost
    is still computed from hiddens encoded from the corrupted input; the
    hidden representation of the layer is the hooked tensor, the output
    decodes it, the compiled predict function takes it as its input, and
    the layer puts no corruption between the hooked tensor and the
    output. *)
Theorem DAE_hiddens_hook_prediction_only
    (a : DAE.kwargs) (s s' : store) (self : DAE.t) (shape h : value) :
  DAE.hiddens_hook a = VTuple [shape; h] ->
  DAE.__init__ a s = Returned self s' ->
  exists x W b0 b1 ha va cf,
    DAE.get_inputs self = [x] /\
    DAE.get_params self = [W; b0; b1] /\
    DAE.resolved a (DAE.hidden_activation a) "hidden_activation" = VStr ha /\
    DAE.resolved a (DAE.visible_activation a) "visible_activation" = VStr va /\
    DAE.resolved a (DAE.cost_function a) "cost_function" = VStr cf /\
    (let corrupted_input :=
       SaltAndPepper x (DAE.resolved a (DAE.corruption_level a) "corruption_level") in
     let hiddens := Call (Activation ha) [Add (Dot corrupted_input W) b1] [] in
     let reconstruction := Call (Activation va) [Add (Dot hiddens (Transpose W)) b0] [] in
     DAE.get_train_cost self =
       Call (CostFunction cf) [] [("output", reconstruction); ("target", x)]) /\
    DAE.get_hiddens self = h /\
    DAE.get_outputs self = Call (Activation va) [Add (Dot h (Transpose W)) b0] [] /\
    DAE.f_predict self = Function [h] (DAE.get_outputs self) /\
    (corrupts h = false -> corrupts W = false -> corrupts b0 = false ->
     corrupts (DAE.get_outputs self) = false).
Proof.
  unfold DAE.__init__, DAE.resolved. intros Hhook Hinit.
  rewrite Hhook in Hinit. simpl truthy in Hinit. cbv iota in Hinit.
  invert_returned Hinit.
  all: tidy.
  all: do 7 eexists; repeat split; try reflexivity.
  all: intros Hh HW Hb; rewrite ?Hh, ?HW, ?Hb; reflexivity.
Qed.
End DAE_facts.

Section Chaining.
Context `{Registry}.

Lemma DAE_chained (a : DAE.kwargs) (shape out : value) (s s' : store) (self : DAE.t) :
  DAE.inputs_hook a = VTuple [shape; out] ->
  DAE.__init__ a s = Returned self s' ->
  DAE.get_inputs self = [out] /\ placeholders s' = placeholders s.
Proof.
  intros Hhook Hnew. split.
  - unfold DAE.__init__ in Hnew. rewrite Hhook in Hnew.
    simpl truthy in Hnew. cbv iota in Hnew.
    do 6 step Hnew. invert_returned E4. tidy.
    repeat step Hnew. reflexivity.
  - apply (fun Hp : preserves placeholders (DAE.__init__ a) => Hp _ _ _ Hnew).
    unfold DAE.__init__. rewrite Hhook. simpl truthy. cbv iota.
    preserved.
Qed.

Lemma Conv1D_chained (a : Conv1D.kwargs) (shape out : value) (s s' : store)
    (self : Conv1D.t) :
  Conv1D.inputs_hook a = VTuple [shape; out] ->
  Conv1D.__init__ a s = Returned self s' ->
  Conv1D.get_inputs self = [out] /\ placeholders s' = placeholders s.
Proof.
  intros Hhook Hnew. split.
  - unfold Conv1D.__init__ in Hnew. rewrite Hhook in Hnew.
    simpl truthy in Hnew. cbv iota in Hnew.
    step Hnew. invert_returned E. tidy.
    repeat step Hnew. reflexivity.
  - apply (fun Hp : preserves placeholders (Conv1D.__init__ a) => Hp _ _ _ Hnew).
    unfold Conv1D.__init__. rewrite Hhook. simpl truthy. cbv iota.
    preserved.
Qed.

Lemma Conv2D_chained (a : Conv2D.kwargs) (shape out : value) (s s' : store)
    (self : Conv2D.t) :
  Conv2D.inputs_hook a = VTuple [shape; out] ->
  Conv2D.__init__ a s = Returned self s' ->
  Conv2D.get_inputs self = [out] /\ placeholders s' = placeholders s.
Proof.
  intros Hhook Hnew. split.
  - unfold Conv2D.__init__ in Hnew. rewrite Hhook in Hnew.
    simpl truthy in Hnew. cbv iota in Hnew.
    step Hnew. invert_returned E. tidy.
    repeat step Hnew. reflexivity.
  - apply (fun Hp : preserves placeholders (Conv2D.__init__ a) => Hp _ _ _ Hnew).
    unfold Conv2D.__init__. rewrite Hhook. simpl truthy. cbv iota.
    preserved.
Qed.

Lemma build_computation_graph_pure (self : ConvPoolLayer.t) :
  pure (ConvPoolLayer.build_computation_graph self).
Proof.
  apply (pure_preserves (fun s => s)).
  unfold ConvPoolLayer.build_computation_graph. preserved.
Qed.

Lemma ConvPoolLayer_chained (a : ConvPoolLayer.kwargs) (shape out : value)
    (s s' : store) (self : ConvPoolLayer.t) :
  ConvPoolLayer.inputs_hook a = VTuple [shape; out] ->
  ConvPoolLayer.__init__ a s = Returned self s' ->
  ConvPoolLayer.get_inputs self = [out] /\ placeholders s' = placeholders s.
Proof.
  intros Hhook Hnew. split.
  - unfold ConvPoolLayer.__init__ in Hnew. rewrite Hhook in Hnew.
    simpl truthy in Hnew. cbv iota in Hnew.
    step Hnew. invert_returned E. tidy.
    repeat step Hnew. all: reflexivity.
  - apply (fun Hp : preserves placeholders (ConvPoolLayer.__init__ a) => Hp _ _ _ Hnew).
    pose proof build_computation_graph_pure as Hgraph.
    unfold ConvPoolLayer.__init__. rewrite Hhook. simpl truthy. cbv iota.
    preserved.
Qed.

(** C1: chaining.  Whatever the classes of the upstream layer A and of the
    downstream layer B, when B is constructed with
    inputs_hook = (shape, A.get_outputs()), the inputs of B are the output
    node of A itself, and the construction of B allocates no symbolic
    input. *)
Theorem chaining_through_inputs_hook
    (A B : model) (c : call) (shape : value) (s s' : store) :
  inputs_hook_of c = VTuple [shape; get_outputs A] ->
  construct c s = Returned B s' ->
  get_inputs B = [get_outputs A] /\ placeholders s' = placeholders s.
Proof.
  intros Hhook Hnew.
  destruct c as [a | a | a | a]; simpl in Hhook; unfold construct in Hnew;
    step Hnew; step Hnew; simpl.
  - eapply DAE_chained; eauto.
  - eapply Conv1D_chained; eauto.
  - eapply Conv2D_chained; eauto.
  - eapply ConvPoolLayer_chained; eauto.
Qed.
End Chaining.

Lemma asarray_ints (l : list Z) : asarray (VTuple (map VInt l)) = NdArray (map VInt l).
Proof.
  unfold asarray.
  replace (forallb is_int (map VInt l)) with true; [reflexivity |].
  induction l as [| z l IH]; [reflexivity | exact IH].
Qed.

Section Grouped.
Context `{Registry}.

Lemma grouped_allocation
    (a : ConvPoolLayer.kwargs) (s s' : store) (self : ConvPoolLayer.t)
    (f0 f1 i0 i1 : Z) (fr ir : list Z) :
  py_eq_int (resolved_group a) 1 = false ->
  truthy (ConvPoolLayer.params_hook a) = false ->
  ConvPoolLayer.requested_filter_shape a = VTuple (map VInt (f0 :: f1 :: fr)) ->
  ConvPoolLayer.requested_input_shape a = VTuple (map VInt (i0 :: i1 :: ir)) ->
  ConvPoolLayer.__init__ a s = Returned self s' ->
  let halved := NdArray (map VInt (f0 / 2 :: f1 / 2 :: fr)) in
  ConvPoolLayer.self_filter_shape self = halved /\
  ConvPoolLayer.self_input_shape self = NdArray (map VInt (i0 / 2 :: i1 / 2 :: ir)) /\
  ConvPoolLayer.channel self = VInt i1 /\
  exists n,
    ConvPoolLayer.get_params self =
      [ Shared n "W0" halved (Gaussian None None);
        Shared (n + 2) "b0" (VInt (f0 / 2)) (BiasInit (Some (ConvPoolLayer.bias_init a)));
        Shared (n + 1) "W1" halved (Gaussian None None);
        Shared (n + 3) "b1" (VInt (f0 / 2)) (BiasInit (Some (ConvPoolLayer.bias_init a))) ].
Proof.
  unfold resolved_group, ConvPoolLayer.requested_filter_shape,
    ConvPoolLayer.requested_input_shape.
  intros Hgroup Hhook Hfilter Hinput Hnew.
  unfold ConvPoolLayer.__init__ in Hnew.
  step Hnew as p s1 Einputs.
  assert (exists input, p = (VTuple (map VInt (i0 :: i1 :: ir)), input)) as [input ->].
  { revert Hinput.
    destruct (truthy (ConvPoolLayer.inputs_hook a)); invert_returned Einputs.
    - destruct l as [| h0 l]; [discriminate |]. cbn in Heqo0. injection Heqo0 as ->.
      intros ->. eauto.
    - intros ->. eauto. }
  step Hnew as act s2 Eact.
  step Hnew as channel s3 Echannel.
  evaluate Echannel. injection Echannel as <- <-.
  step Hnew as u s4 Egroup.
  rewrite Hgroup, Hhook, Hfilter, !asarray_ints in Hnew.
  step Hnew as q s5 Eparams. evaluate Eparams. injection Eparams as <- <-.
  repeat step Hnew.
  cbn. repeat split.
  exists (length s4). rewrite !length_app. cbn [length].
  rewrite <- !Nat.add_assoc. reflexivity.
Qed.

(** The graph of a grouped layer, as build_computation_graph and the end of
    the constructor assemble it from the two convolutions. *)
Lemma grouped_output
    (a : ConvPoolLayer.kwargs) (s s' : store) (self : ConvPoolLayer.t)
    (channel : Z) :
  py_eq_int (resolved_group a) 1 = false ->
  ConvPoolLayer.channel self = VInt channel ->
  ConvPoolLayer.__init__ a s = Returned self s' ->
  exists W0 b0 W1 b1,
    ConvPoolLayer.get_params self = [W0; b0; W1; b1] /\
    ConvPoolLayer.get_outputs self = split_convolution self channel W0 b0 W1 b1.
Proof.
  unfold resolved_group. intros Hgroup Hchannel Hnew.
  unfold ConvPoolLayer.__init__ in Hnew.
  step Hnew as p s1 Einputs. destruct p as [input_shape input].
  step Hnew as act s2 Eact.
  step Hnew as channel' s3 Echannel.
  step Hnew as u s4 Egroup.
  step Hnew as q s5 Eparams. destruct q as [[filter_shape input_shape'] params].
  step Hnew as output s6 Egraph.
  step Hnew as output' s7 Elrn.
  step Hnew. cbn in Hchannel. subst channel'.
  rewrite Hgroup in Eparams. repeat step Eparams.
  unfold ConvPoolLayer.build_computation_graph in Egraph.
  cbn [ConvPoolLayer.self_group ConvPoolLayer.params ConvPoolLayer.channel
       ConvPoolLayer.input ConvPoolLayer.self_convolution
       ConvPoolLayer.self_convstride ConvPoolLayer.self_padsize
       ConvPoolLayer.activation_func ConvPoolLayer.self_poolsize
       ConvPoolLayer.self_poolstride] in Egraph.
  rewrite Hgroup in Egraph.
  cbn [ConvPoolLayer.get_params ConvPoolLayer.get_outputs ConvPoolLayer.params
       ConvPoolLayer.output ConvPoolLayer.input ConvPoolLayer.self_convolution
       ConvPoolLayer.self_convstride ConvPoolLayer.self_padsize
       ConvPoolLayer.activation_func ConvPoolLayer.self_poolsize
       ConvPoolLayer.self_poolstride ConvPoolLayer.lrn].
  do 4 eexists. split; [reflexivity |].
  unfold split_convolution.
  cbn [ConvPoolLayer.get_params ConvPoolLayer.get_outputs ConvPoolLayer.params
       ConvPoolLayer.output ConvPoolLayer.input ConvPoolLayer.self_convolution
       ConvPoolLayer.self_convstride ConvPoolLayer.self_padsize
       ConvPoolLayer.activation_func ConvPoolLayer.self_poolsize
       ConvPoolLayer.self_poolstride ConvPoolLayer.lrn].
  cbv zeta.
  clear Einputs Eact Echannel Egroup. revert Egraph Elrn.
  destruct (truthy _), (negb _), has_cudnn; intros Egraph Elrn.
  all: invert_returned Egraph; invert_returned Elrn; tidy; reflexivity.
Qed.

Lemma group_validated (a : ConvPoolLayer.kwargs) (s : store) :
  py_eq_int (resolved_group a) 1 || py_eq_int (resolved_group a) 2 = false ->
  exists e, ConvPoolLayer.__init__ a s = Raised e.
Proof.
  unfold resolved_group. intros Hgroup.
  destruct (ConvPoolLayer.__init__ a s) as [e | self s'] eqn:Hnew; [eauto |].
  exfalso. unfold ConvPoolLayer.__init__ in Hnew.
  step Hnew as p s1 Einputs. destruct p as [input_shape input].
  step Hnew as act s2 Eact.
  step Hnew as channel' s3 Echannel.
  step Hnew as u s4 Egroup.
  rewrite Hgroup in Egroup. discriminate Egroup.
Qed.


End Grouped.

Lemma items_of_truthy (v x : value) (l : list value) :
  items_of v = Some (x :: l) -> truthy v = true.
Proof.
  destruct v; simpl; intros Hv; try discriminate Hv; try reflexivity.
  - destruct s; [discriminate Hv | reflexivity].
  - injection Hv as ->. reflexivity.
  - injection Hv as ->. reflexivity.
Qed.

Section Params_hook.
Context `{Registry}.

Lemma DAE_params_adopted (a : DAE.kwargs) (s s' : store) (self : DAE.t)
    (x : value) (l : list value) :
  items_of (DAE.params_hook a) = Some (x :: l) ->
  DAE.__init__ a s = Returned self s' ->
  DAE.get_params self = x :: l.
Proof.
  intros Hhook Hnew. unfold DAE.__init__ in Hnew.
  rewrite (items_of_truthy _ _ _ Hhook) in Hnew.
  do 6 step Hnew. step Hnew as p s1 Eparams.
  invert_returned Eparams. repeat step Hnew. cbn. congruence.
Qed.

Lemma Conv1D_params_adopted (a : Conv1D.kwargs) (s s' : store) (self : Conv1D.t)
    (x : value) (l : list value) :
  items_of (Conv1D.params_hook a) = Some (x :: l) ->
  Conv1D.__init__ a s = Returned self s' ->
  Conv1D.get_params self = x :: l.
Proof.
  intros Hhook Hnew. unfold Conv1D.__init__ in Hnew.
  rewrite (items_of_truthy _ _ _ Hhook) in Hnew.
  step Hnew as p s1 Einputs. destruct p as [input_shape input].
  do 3 step Hnew. step Hnew as p s5 Eparams.
  invert_returned Eparams. repeat step Hnew. all: cbn; congruence.
Qed.

Lemma Conv2D_params_adopted (a : Conv2D.kwargs) (s s' : store) (self : Conv2D.t)
    (x : value) (l : list value) :
  items_of (Conv2D.params_hook a) = Some (x :: l) ->
  Conv2D.__init__ a s = Returned self s' ->
  Conv2D.get_params self = x :: l.
Proof.
  intros Hhook Hnew. unfold Conv2D.__init__ in Hnew.
  rewrite (items_of_truthy _ _ _ Hhook) in Hnew.
  step Hnew as p s1 Einputs. destruct p as [input_shape input].
  do 3 step Hnew. step Hnew as p s5 Eparams.
  invert_returned Eparams. repeat step Hnew. all: cbn; congruence.
Qed.

Lemma ConvPoolLayer_params_adopted (a : ConvPoolLayer.kwargs) (s s' : store)
    (self : ConvPoolLayer.t) (x : value) (l : list value) :
  py_eq_int (resolved_group a) 1 = true ->
  items_of (ConvPoolLayer.params_hook a) = Some (x :: l) ->
  ConvPoolLayer.__init__ a s = Returned self s' ->
  ConvPoolLayer.get_params self = x :: l.
Proof.
  unfold resolved_group. intros Hgroup Hhook Hnew.
  unfold ConvPoolLayer.__init__ in Hnew.
  rewrite Hgroup, (items_of_truthy _ _ _ Hhook) in Hnew.
  step Hnew as p s1 Einputs. destruct p as [input_shape input].
  do 3 step Hnew. step Hnew as q s5 Eparams.
  step Eparams as p s6 Ehook. invert_returned Ehook.
  repeat step Eparams. repeat step Hnew. cbn. congruence.
Qed.

End Params_hook.

Section Wrong_count.
Context `{Registry}.

(** The statements that check a params_hook of the wrong length. *)
Lemma count_check_raises {A} (hook : value) (l : list value) (n : nat)
    (k : list value -> M A) (s : store) :
  items_of hook = Some l -> length l <> n ->
  bind (n' <- py_len hook ;; assert (n' =? n)%nat (ParamsCount n n') ;;; unpack n hook) k s
  = Raised (AssertionError (ParamsCount n (length l))).
Proof.
  intros Hhook Hlen. unfold bind, py_len, assert. rewrite Hhook.
  cbv beta iota delta [ret raise].
  destruct (Nat.eqb_spec (length l) n); [contradiction | reflexivity].
Qed.

Lemma DAE_wrong_count (a : DAE.kwargs) (s : store) (x : value) (l : list value) :
  items_of (DAE.params_hook a) = Some (x :: l) ->
  length (x :: l) <> 3%nat ->
  (exists e, DAE.__init__ a s = Raised e) /\
  (forall self s0,
     DAE.__init__ (DAE.with_params_hook a VNone) s = Returned self s0 ->
     DAE.__init__ a s = Raised (AssertionError (ParamsCount 3 (length (x :: l))))).
Proof.
  intros Hhook Hlen. split.
  - destruct (DAE.__init__ a s) as [e | self s'] eqn:Hnew; [eauto |]. exfalso.
    unfold DAE.__init__ in Hnew.
    rewrite (items_of_truthy _ _ _ Hhook) in Hnew.
    do 6 step Hnew.
    rewrite (count_check_raises _ _ _ _ _ Hhook Hlen) in Hnew. discriminate Hnew.
  - intros self s0 Hnew. unfold DAE.__init__ in Hnew |- *.
    unfold DAE.with_params_hook in Hnew.
    cbn [DAE.config DAE.defaults DAE.inputs_hook DAE.hiddens_hook DAE.params_hook
         DAE.input_size DAE.hidden_size DAE.corruption_level DAE.hidden_activation
         DAE.visible_activation DAE.cost_function] in Hnew.
    rewrite (items_of_truthy _ _ _ Hhook).
    do 6 lockstep Hnew.
    apply (count_check_raises _ _ _ _ _ Hhook Hlen).
Qed.

Lemma Conv1D_wrong_count (a : Conv1D.kwargs) (s : store) (x : value) (l : list value) :
  items_of (Conv1D.params_hook a) = Some (x :: l) ->
  length (x :: l) <> 2%nat ->
  (exists e, Conv1D.__init__ a s = Raised e) /\
  (forall self s0,
     Conv1D.__init__ (Conv1D.with_params_hook a VNone) s = Returned self s0 ->
     Conv1D.__init__ a s = Raised (AssertionError (ParamsCount 2 (length (x :: l))))).
Proof.
  intros Hhook Hlen. split.
  - destruct (Conv1D.__init__ a s) as [e | self s'] eqn:Hnew; [eauto |]. exfalso.
    unfold Conv1D.__init__ in Hnew.
    rewrite (items_of_truthy _ _ _ Hhook) in Hnew.
    do 5 step Hnew.
    rewrite (count_check_raises _ _ _ _ _ Hhook Hlen) in Hnew. discriminate Hnew.
  - intros self s0 Hnew. unfold Conv1D.__init__ in Hnew |- *.
    unfold Conv1D.with_params_hook in Hnew.
    cbn [Conv1D.config Conv1D.defaults Conv1D.inputs_hook Conv1D.params_hook
         Conv1D.input_shape Conv1D.filter_shape Conv1D.stride Conv1D.weights_init
         Conv1D.weights_interval Conv1D.weights_mean Conv1D.weights_std
         Conv1D.bias_init Conv1D.border_mode Conv1D.activation Conv1D.convolution]
      in Hnew.
    rewrite (items_of_truthy _ _ _ Hhook).
    do 5 lockstep Hnew.
    apply (count_check_raises _ _ _ _ _ Hhook Hlen).
Qed.

Lemma Conv2D_wrong_count (a : Conv2D.kwargs) (s : store) (x : value) (l : list value) :
  items_of (Conv2D.params_hook a) = Some (x :: l) ->
  length (x :: l) <> 2%nat ->
  (exists e, Conv2D.__init__ a s = Raised e) /\
  (forall self s0,
     Conv2D.__init__ (Conv2D.with_params_hook a VNone) s = Returned self s0 ->
     Conv2D.__init__ a s = Raised (AssertionError (ParamsCount 2 (length (x :: l))))).
Proof.
  intros Hhook Hlen. split.
  - destruct (Conv2D.__init__ a s) as [e | self s'] eqn:Hnew; [eauto |]. exfalso.
    unfold Conv2D.__init__ in Hnew.
    rewrite (items_of_truthy _ _ _ Hhook) in Hnew.
    do 5 step Hnew.
    rewrite (count_check_raises _ _ _ _ _ Hhook Hlen) in Hnew. discriminate Hnew.
  - intros self s0 Hnew. unfold Conv2D.__init__ in Hnew |- *.
    unfold Conv2D.with_params_hook in Hnew.
    cbn [Conv2D.config Conv2D.defaults Conv2D.inputs_hook Conv2D.params_hook
         Conv2D.input_shape Conv2D.filter_shape Conv2D.strides Conv2D.weights_init
         Conv2D.weights_interval Conv2D.weights_mean Conv2D.weights_std
         Conv2D.bias_init Conv2D.border_mode Conv2D.activation Conv2D.convolution]
      in Hnew.
    rewrite (items_of_truthy _ _ _ Hhook).
    do 5 lockstep Hnew.
    apply (count_check_raises _ _ _ _ _ Hhook Hlen).
Qed.

Lemma ConvPoolLayer_wrong_count (a : ConvPoolLayer.kwargs) (s : store)
    (x : value) (l : list value) :
  let required := if py_eq_int (resolved_group a) 1 then 2%nat else 4%nat in
  items_of (ConvPoolLayer.params_hook a) = Some (x :: l) ->
  length (x :: l) <> required ->
  (exists e, ConvPoolLayer.__init__ a s = Raised e) /\
  (forall self s0,
     ConvPoolLayer.__init__ (ConvPoolLayer.with_params_hook a VNone) s
       = Returned self s0 ->
     ConvPoolLayer.__init__ a s
       = Raised (AssertionError (ParamsCount required (length (x :: l))))).
Proof.
  intros required Hhook Hlen. unfold resolved_group in required. split.
  - destruct (ConvPoolLayer.__init__ a s) as [e | self s'] eqn:Hnew; [eauto |]. exfalso.
    unfold ConvPoolLayer.__init__ in Hnew.
    rewrite (items_of_truthy _ _ _ Hhook) in Hnew.
    do 5 step Hnew. step Hnew as q s5 Eparams.
    subst required. destruct (py_eq_int _ 1).
    + rewrite (count_check_raises _ _ _ _ _ Hhook Hlen) in Eparams.
      discriminate Eparams.
    + do 12 step Eparams.
      rewrite (count_check_raises _ _ _ _ _ Hhook Hlen) in Eparams.
      discriminate Eparams.
  - intros self s0 Hnew. unfold ConvPoolLayer.__init__ in Hnew |- *.
    unfold ConvPoolLayer.with_params_hook in Hnew.
    cbn [ConvPoolLayer.config ConvPoolLayer.defaults ConvPoolLayer.inputs_hook
         ConvPoolLayer.params_hook ConvPoolLayer.input_shape
         ConvPoolLayer.filter_shape ConvPoolLayer.convstride ConvPoolLayer.padsize
         ConvPoolLayer.group ConvPoolLayer.poolsize ConvPoolLayer.poolstride
         ConvPoolLayer.bias_init ConvPoolLayer.local_response_normalization
         ConvPoolLayer.convolution ConvPoolLayer.activation] in Hnew.
    rewrite (items_of_truthy _ _ _ Hhook).
    do 5 lockstep Hnew. step Hnew as q s5 Eparams.
    subst required. destruct (py_eq_int _ 1).
    + rewrite bind_assoc. apply (count_check_raises _ _ _ _ _ Hhook Hlen).
    + do 12 (rewrite bind_assoc; lockstep Eparams).
      rewrite bind_assoc. apply (count_check_raises _ _ _ _ _ Hhook Hlen).
Qed.

End Wrong_count.

Lemma get_beside_weights_init (cfg : option dict) (d : dict) (v : value) (k : string) :
  k <> "weights_init" ->
  get (Model_init (Some (<["weights_init" := v]> (default ∅ cfg))) d) k
  = get (Model_init cfg d) k.
Proof.
  intros Hk. unfold get, Model_init. f_equal.
  rewrite lookup_union, lookup_insert_ne by congruence.
  destruct cfg as [c |]; simpl.
  - rewrite lookup_union. reflexivity.
  - rewrite lookup_empty. destruct (d !! k); reflexivity.
Qed.

Section Weights_init.
Context `{Registry}.

Lemma Conv1D_weights_init_unused (a : Conv1D.kwargs) (explicit configured : value) :
  truthy (Conv1D.params_hook a) = true ->
  Conv1D.__init__ (Conv1D.with_weights_init a explicit configured) = Conv1D.__init__ a.
Proof.
  intros Hhook. unfold Conv1D.__init__, Conv1D.with_weights_init.
  cbn [Conv1D.config Conv1D.defaults Conv1D.inputs_hook Conv1D.params_hook
       Conv1D.input_shape Conv1D.filter_shape Conv1D.stride Conv1D.weights_init
       Conv1D.weights_interval Conv1D.weights_mean Conv1D.weights_std
       Conv1D.bias_init Conv1D.border_mode Conv1D.activation Conv1D.convolution].
  rewrite Hhook. cbv beta iota zeta.
  rewrite !get_beside_weights_init by discriminate. reflexivity.
Qed.

Lemma Conv2D_weights_init_unused (a : Conv2D.kwargs) (explicit configured : value) :
  truthy (Conv2D.params_hook a) = true ->
  Conv2D.__init__ (Conv2D.with_weights_init a explicit configured) = Conv2D.__init__ a.
Proof.
  intros Hhook. unfold Conv2D.__init__, Conv2D.with_weights_init.
  cbn [Conv2D.config Conv2D.defaults Conv2D.inputs_hook Conv2D.params_hook
       Conv2D.input_shape Conv2D.filter_shape Conv2D.strides Conv2D.weights_init
       Conv2D.weights_interval Conv2D.weights_mean Conv2D.weights_std
       Conv2D.bias_init Conv2D.border_mode Conv2D.activation Conv2D.convolution].
  rewrite Hhook. cbv beta iota zeta.
  rewrite !get_beside_weights_init by discriminate. reflexivity.
Qed.

Lemma Conv1D_hook_allocates_no_parameter (a : Conv1D.kwargs) :
  truthy (Conv1D.params_hook a) = true -> preserves shareds (Conv1D.__init__ a).
Proof.
  intros Hhook. unfold Conv1D.__init__. rewrite Hhook. cbv iota. preserved.
Qed.

Lemma Conv2D_hook_allocates_no_parameter (a : Conv2D.kwargs) :
  truthy (Conv2D.params_hook a) = true -> preserves shareds (Conv2D.__init__ a).
Proof.
  intros Hhook. unfold Conv2D.__init__. rewrite Hhook. cbv iota. preserved.
Qed.

End Weights_init.

Lemma py_eq_str_true (v : value) (s : string) : py_eq_str v s = true -> v = VStr s.
Proof.
  destruct v; try discriminate. simpl. intros Hs.
  apply String.eqb_eq in Hs. congruence.
Qed.

Lemma chars_substring_short (n : nat) (s : string) :
  (length (chars (substring n 1 s)) <= 1)%nat.
Proof.
  revert s. induction n as [| n IH]; intros [| c s]; simpl; try lia.
  - destruct s; simpl; lia.
  - apply IH.
Qed.

(** [x[2:3]] has no item at index 1. *)
Lemma slice_2_3_short (v fs : value) (s s' s1 : store) :
  getslice v 2 3 s = Returned fs s' -> getitem fs 1 s1 = Raised IndexError.
Proof.
  intros Hslice.
  assert (exists l, items_of fs = Some l /\ (length l <= 1)%nat) as (l & Hl & Hlen).
  { unfold getslice in Hslice. destruct v; try discriminate Hslice;
      injection Hslice as <- _; eexists; (split; [reflexivity |]).
    - apply chars_substring_short.
    - rewrite length_take. lia.
    - rewrite length_take. lia.
    - rewrite length_take. lia. }
  unfold getitem. rewrite Hl.
  rewrite (proj2 (lookup_ge_None l 1%nat)) by exact Hlen. reflexivity.
Qed.

Lemma same_crop_keeps_extent (n k : Z) :
  0 <= n -> 1 <= k ->
  slice_extent (full_extent n k) ((k - 1) / 2) (n + (k - 1) / 2) = n.
Proof.
  intros Hn Hk. unfold slice_extent, full_extent, valid_extent.
  assert (0 <= (k - 1) / 2 <= k - 1) as Hshift.
  { split; [apply Z.div_pos; lia | apply Z.div_le_upper_bound; lia]. }
  lia.
Qed.

Section Border_mode.
Context `{Registry}.

(** X1: with border mode 'same' Conv1D convolves in mode 'full' and keeps,
    along the convolved axis, the window of the input's extent [n] that starts
    at (filter_length - 1) / 2. *)
Lemma Conv1D_same_crops_full (a : Conv1D.kwargs) (s s' : store) (self : Conv1D.t)
    (i0 i1 n f0 f1 k : Z) (x : value) :
  let args := Model_init (Conv1D.config a) (Conv1D.defaults a) in
  py_or (Conv1D.border_mode a) (get args "border_mode") = VStr "same" ->
  Conv1D.inputs_hook a = VTuple [VTuple [VInt i0; VInt i1; VInt n]; x] ->
  py_or (Conv1D.filter_shape a) (get args "filter_shape")
    = VTuple [VInt f0; VInt f1; VInt k] ->
  Conv1D.__init__ a s = Returned self s' ->
  exists act conv W b kw,
    Conv1D.get_inputs self = [x] /\
    Conv1D.get_params self = [W; b] /\
    In ("border_mode", VStr "full") kw /\
    Conv1D.get_outputs self =
      Call act
        [Add (Subscript (Convolve conv x W kw)
                [Full; Full; Range (Some ((k - 1) / 2)) (Some (n + (k - 1) / 2))])
             (DimShuffle b [None; Some 0; None])] [].
Proof.
  intros args Hmode Hhook Hfilter Hnew. subst args. unfold Conv1D.__init__ in Hnew.
  rewrite Hmode, Hhook, Hfilter in Hnew.
  step Hnew as p s1 Einputs. evaluate Einputs. injection Einputs as <- <-.
  step Hnew as act s2 Eact.
  step Hnew as num_filters s3 Enum. evaluate Enum. injection Enum as <- <-.
  step Hnew as filter_length s4 Elen. evaluate Elen. injection Elen as <- <-.
  step Hnew as p s5 Eparams.
  destruct p as [| W [| b [| ? ?]]]; [step Hnew | step Hnew | | step Hnew].
  simpl (py_eq_str _ _) in Hnew. cbn [orb] in Hnew.
  step Hnew as conved s6 Econv. step Hnew as output s7 Eout. step Hnew.
  evaluate Econv.
  invert_returned Econv; invert_returned Eout; tidy.
  all: do 5 eexists; cbn; repeat split; try reflexivity.
  all: do 3 right; left; reflexivity.
Qed.

(** C7, where the code departs from it: Conv2D takes filter_shape[2:3] as
    the filter size, a sequence of one item, and asks it for a second item
    to compute the crop, so with border mode 'same' the constructor never
    returns a layer. *)
Theorem Conv2D_same_never_builds (a : Conv2D.kwargs) (s : store) :
  let args := Model_init (Conv2D.config a) (Conv2D.defaults a) in
  py_eq_str (py_or (Conv2D.border_mode a) (get args "border_mode")) "same" = true ->
  exists e, Conv2D.__init__ a s = Raised e.
Proof.
  intros args Hmode. subst args. apply py_eq_str_true in Hmode.
  destruct (Conv2D.__init__ a s) as [e | self s'] eqn:Hnew; [eauto |]. exfalso.
  unfold Conv2D.__init__ in Hnew. rewrite Hmode in Hnew.
  step Hnew as p s1 Einputs. destruct p as [input_shape input].
  step Hnew as act s2 Eact. step Hnew as num_filters s3 Enum.
  step Hnew as filter_size s4 Eslice. step Hnew as p s5 Eparams.
  destruct p as [| W [| b [| ? ?]]]; [step Hnew | step Hnew | | step Hnew].
  simpl (py_eq_str _ _) in Hnew. cbn [orb] in Hnew.
  step Hnew as conved s6 Econv.
  do 3 step Econv. step Econv as f1 s10 Esecond.
  rewrite (slice_2_3_short _ _ _ _ _ Eslice) in Esecond. discriminate Esecond.
Qed.
End Border_mode.

(** The precedence of section 4.1 where it holds: an argument with a true
    truth value wins, then the configuration, then the defaults. *)
Lemma resolution_precedence (explicit : value) (config : option dict) (defaults : dict)
    (k : string) :
  let args := Model_init config defaults in
  (truthy explicit = true -> py_or explicit (get args k) = explicit) /\
  (forall c v, config = Some c -> c !! k = Some v -> get args k = v) /\
  (forall c, config = Some c -> c !! k = None -> get args k = get defaults k) /\
  (config = None -> get args k = get defaults k).
Proof.
  unfold py_or, get, Model_init. repeat split.
  - intros ->. reflexivity.
  - intros c v -> Hv. erewrite lookup_union_Some_l by exact Hv. reflexivity.
  - intros c -> Hv. rewrite lookup_union_r by exact Hv. reflexivity.
  - intros ->. reflexivity.
Qed.

(** An argument with a false truth value (0, 0.0, an empty string or
    sequence) is treated as one that was not passed. *)
Lemma falsy_argument_is_dropped (explicit configured : value) :
  truthy explicit = false -> py_or explicit configured = configured.
Proof. unfold py_or. intros ->. reflexivity. Qed.

(** C2, where the code departs from it.  [corruption_level=0] is dropped for
    the default 0.4; [weights_init='uniform'] is refused when the
    configuration says 'gaussian', because the second test reads the
    configuration instead of the resolved value, and for the same reason an
    unknown [weights_init] is accepted as long as the configuration says
    'uniform'; a configured bias_init is never read. *)
Theorem explicit_argument_not_always_used :
  (exists self s' W b0 b1,
     DAE.__init__ (H := registry) (dae_call VNone VNone VNone (VInt 0)) [] = Returned self s' /\
     DAE.get_params self = [W; b0; b1] /\
     DAE.get_train_cost self =
       Call (CostFunction "binary_crossentropy") []
         [("output",
           Call (Activation "sigmoid")
             [Add (Dot (Call (Activation "tanh")
                          [Add (Dot (SaltAndPepper (Placeholder 0 2 "X") (VFloat (4 # 10))) W)
                               b1] [])
                       (Transpose W)) b0] []);
          ("target", Placeholder 0 2 "X")]) /\
  Conv1D.__init__ (H := registry)
    (conv1d_call VNone (VStr "uniform") VNone (Some {["weights_init" := VStr "gaussian"]}))
    caller_store
  = Raised (NotImplementedError (VStr "gaussian")) /\
  (exists self s' b,
     Conv1D.__init__ (H := registry) (conv1d_call VNone (VStr "bogus") VNone None) caller_store
       = Returned self s' /\
     Conv1D.get_params self =
       [Shared 5 "W" (shape [4; 3; 5]) (Uniform (Some (VStr "montreal"))); b]) /\
  (exists self s' W,
     Conv1D.__init__ (H := registry)
       (conv1d_call VNone VNone VNone (Some {["bias_init" := VFloat (1 # 2)]})) caller_store
       = Returned self s' /\
     Conv1D.get_params self = [W; Shared 6 "b" (VTuple [VInt 4]) (BiasInit (Some VNone))]).
Proof.
  repeat split.
  - do 5 eexists. vm_compute. repeat split; reflexivity.
  - do 3 eexists. vm_compute. repeat split; reflexivity.
  - do 3 eexists. vm_compute. repeat split; reflexivity.
Qed.

Section Witnesses.
(** A denoising autoencoder built with no argument, and a second one
    chained to its output. *)
Lemma DAE_training_path_witness :
  exists self s',
    DAE.__init__ (H := registry) DAE.no_kwargs [] = Returned self s' /\
    exists x W b0 b1 ha va cf,
      DAE.get_inputs self = [x] /\
      DAE.get_params self = [W; b0; b1] /\
      DAE.resolved DAE.no_kwargs VNone "hidden_activation" = VStr ha /\
      DAE.resolved DAE.no_kwargs VNone "visible_activation" = VStr va /\
      DAE.resolved DAE.no_kwargs VNone "cost_function" = VStr cf /\
      DAE.get_train_cost self =
        Call (CostFunction cf) []
          [("output",
            Call (Activation va)
              [Add (Dot (Call (Activation ha)
                           [Add (Dot (SaltAndPepper x
                                        (DAE.resolved DAE.no_kwargs VNone "corruption_level"))
                                     W) b1] [])
                        (Transpose W)) b0] []);
           ("target", x)].
Proof.
  eexists _, _. split; [vm_compute; reflexivity |].
  eapply (DAE_training_path (H := registry) DAE.no_kwargs []).
  vm_compute; reflexivity.
Defined.




(** A second autoencoder on the output of a first one. *)
Lemma chaining_through_inputs_hook_witness :
  exists A sA B sB,
    construct (H := registry) (NewDAE DAE.no_kwargs) [] = Returned A sA /\
    construct (H := registry)
      (NewDAE (dae_call (VTuple [VInt 784; get_outputs A]) VNone VNone VNone)) sA
      = Returned B sB /\
    get_inputs B = [get_outputs A] /\ placeholders sB = placeholders sA.
Proof.
  do 4 eexists. split; [vm_compute; reflexivity |].
  split; [vm_compute; reflexivity |].
  eapply (chaining_through_inputs_hook (H := registry) _ _
            (NewDAE (dae_call _ VNone VNone VNone)) (VInt 784)); [reflexivity |].
  vm_compute; reflexivity.
Defined.




(** An autoencoder decoding a hidden representation given by the caller. *)
Lemma DAE_hiddens_hook_prediction_only_witness :
  exists self s',
    DAE.__init__ (H := registry) (dae_call VNone (VTuple [VInt 1000; X]) VNone VNone)
      caller_store = Returned self s' /\
    DAE.get_hiddens self = X /\
    DAE.f_predict self = Function [X] (DAE.get_outputs self) /\
    corrupts (DAE.get_outputs self) = false /\
    corrupts (DAE.get_train_cost self) = true.
Proof.
  do 2 eexists. split; [vm_compute; reflexivity |].
  edestruct (DAE_hiddens_hook_prediction_only (H := registry)
               (dae_call VNone (VTuple [VInt 1000; X]) VNone VNone) caller_store)
    as (x & W & b0 & b1 & ha & va & cf & _ & _ & _ & _ & _ & _ & Hh & _ & Hf & _);
    [reflexivity | vm_compute; reflexivity |].
  split; [exact Hh |]. split; [exact Hf |]. split; reflexivity.
Defined.

(** Conv2D asked for border mode 'same'. *)
Lemma Conv2D_same_never_builds_witness :
  py_eq_str (VStr "same") "same" = true /\
  exists e,
    Conv2D.__init__ (H := registry) (conv2d_call VNone VNone (VStr "same") None)
      caller_store = Raised e.
Proof.
  split; [reflexivity |].
  apply (Conv2D_same_never_builds (H := registry)
           (conv2d_call VNone VNone (VStr "same") None) caller_store).
  reflexivity.
Defined.

Example Conv2D_same_raises_IndexError :
  Conv2D.__init__ (H := registry) (conv2d_call VNone VNone (VStr "same") None)
    caller_store = Raised IndexError.
Proof. vm_compute. reflexivity. Qed.

Example Conv2D_valid_builds :
  exists self s',
    Conv2D.__init__ (H := registry) (conv2d_call VNone VNone (VStr "valid") None)
      caller_store = Returned self s'.
Proof. do 2 eexists. vm_compute. reflexivity. Qed.

End Witnesses.


(** ** Further properties of the constructors *)

Section Hooks.
Context `{Registry}.

Lemma DAE_hooks_allocate_nothing (a : DAE.kwargs) :
  truthy (DAE.inputs_hook a) = true -> truthy (DAE.params_hook a) = true ->
  pure (DAE.__init__ a).
Proof.
  intros Hi Hp. change (preserves (fun s : store => s) (DAE.__init__ a)).
  unfold DAE.__init__. rewrite Hi, Hp. cbv iota. preserved.
Qed.

Lemma Conv1D_hooks_allocate_nothing (a : Conv1D.kwargs) :
  truthy (Conv1D.inputs_hook a) = true -> truthy (Conv1D.params_hook a) = true ->
  pure (Conv1D.__init__ a).
Proof.
  intros Hi Hp. change (preserves (fun s : store => s) (Conv1D.__init__ a)).
  unfold Conv1D.__init__. rewrite Hi, Hp. cbv iota. preserved.
Qed.

Lemma Conv2D_hooks_allocate_nothing (a : Conv2D.kwargs) :
  truthy (Conv2D.inputs_hook a) = true -> truthy (Conv2D.params_hook a) = true ->
  pure (Conv2D.__init__ a).
Proof.
  intros Hi Hp. change (preserves (fun s : store => s) (Conv2D.__init__ a)).
  unfold Conv2D.__init__. rewrite Hi, Hp. cbv iota. preserved.
Qed.

Lemma ConvPoolLayer_hooks_allocate_nothing (a : ConvPoolLayer.kwargs) :
  truthy (ConvPoolLayer.inputs_hook a) = true ->
  truthy (ConvPoolLayer.params_hook a) = true ->
  pure (ConvPoolLayer.__init__ a).
Proof.
  intros Hi Hp. change (preserves (fun s : store => s) (ConvPoolLayer.__init__ a)).
  pose proof build_computation_graph_pure as Hgraph.
  unfold ConvPoolLayer.__init__. rewrite Hi, Hp. cbv iota. preserved.
Qed.

(** X2: a layer given both its input and its parameters owns nothing: its
    construction leaves the store as it was. *)
Theorem hooked_layer_allocates_nothing
    (c : call) (s s' : store) (m : model) (x p : value) (xs ps : list value) :
  items_of (inputs_hook_of c) = Some (x :: xs) ->
  items_of (params_hook_of c) = Some (p :: ps) ->
  construct c s = Returned m s' ->
  s' = s.
Proof.
  intros Hi Hp Hnew.
  apply items_of_truthy in Hi. apply items_of_truthy in Hp.
  destruct c as [a | a | a | a]; cbn [inputs_hook_of params_hook_of] in Hi, Hp;
    unfold construct in Hnew; step Hnew as self s1 Eself; step Hnew.
  - eapply DAE_hooks_allocate_nothing; eauto.
  - eapply Conv1D_hooks_allocate_nothing; eauto.
  - eapply Conv2D_hooks_allocate_nothing; eauto.
  - eapply ConvPoolLayer_hooks_allocate_nothing; eauto.
Qed.

Lemma DAE_hook_allocates_no_parameter (a : DAE.kwargs) :
  truthy (DAE.params_hook a) = true -> preserves shareds (DAE.__init__ a).
Proof.
  intros Hhook. unfold DAE.__init__. rewrite Hhook. cbv iota. preserved.
Qed.

Lemma ConvPoolLayer_hook_allocates_no_parameter (a : ConvPoolLayer.kwargs) :
  truthy (ConvPoolLayer.params_hook a) = true ->
  preserves shareds (ConvPoolLayer.__init__ a).
Proof.
  intros Hhook. pose proof build_computation_graph_pure as Hgraph.
  unfold ConvPoolLayer.__init__. rewrite Hhook. cbv iota. preserved.
Qed.

(** X3: outside the grouped path, the parameters of a layer built with a
    params_hook are the items of the hook, in their order, and the layer
    allocates no parameter of its own. *)
Theorem params_hook_round_trip
    (c : call) (s s' : store) (m : model) (p : value) (ps : list value) :
  grouped c = false ->
  items_of (params_hook_of c) = Some (p :: ps) ->
  construct c s = Returned m s' ->
  get_params m = p :: ps /\ shareds s' = shareds s.
Proof.
  intros Hplain Hp Hnew. pose proof (items_of_truthy _ _ _ Hp) as Htrue.
  destruct c as [a | a | a | a]; cbn [grouped params_hook_of] in Hplain, Hp, Htrue;
    unfold construct in Hnew; step Hnew as self s1 Eself; step Hnew;
    cbn [get_params]; split.
  - eapply DAE_params_adopted; eauto.
  - eapply DAE_hook_allocates_no_parameter; eauto.
  - eapply Conv1D_params_adopted; eauto.
  - eapply Conv1D_hook_allocates_no_parameter; eauto.
  - eapply Conv2D_params_adopted; eauto.
  - eapply Conv2D_hook_allocates_no_parameter; eauto.
  - apply negb_false_iff in Hplain. eapply ConvPoolLayer_params_adopted; eauto.
  - eapply ConvPoolLayer_hook_allocates_no_parameter; eauto.
Qed.

(** The statements that check an inputs_hook of the wrong length. *)
Lemma pair_check_raises {A B} (hook : value) (l : list value)
    (k1 : unit -> M A) (k : A -> M B) (s : store) :
  items_of hook = Some l -> length l <> 2%nat ->
  bind (n <- py_len hook ;; u <- assert (n =? 2)%nat InputsHookPair ;; k1 u) k s
  = Raised (AssertionError InputsHookPair).
Proof.
  intros Hhook Hlen. unfold bind, py_len, assert. rewrite Hhook.
  cbv beta iota delta [ret raise].
  destruct (Nat.eqb_spec (length l) 2); [contradiction | reflexivity].
Qed.

End Hooks.


Lemma preserves_apply {X A} (f : store -> X) (m : M A) (s s' : store) (a : A) :
  preserves f m -> m s = Returned a s' -> f s' = f s.
Proof. intros Hm E. exact (Hm _ _ _ E). Qed.

Lemma placeholders_snoc (s : store) (id rank : nat) (name : string) :
  placeholders (s ++ [Placeholder id rank name])
  = placeholders s ++ [Placeholder id rank name].
Proof. unfold placeholders. rewrite List.filter_app. reflexivity. Qed.

(** [by_pure E] uses that the statement of [E] leaves the store alone. *)
Ltac by_pure E :=
  lazymatch type of E with
  | ?m ?s = Returned _ ?s1 =>
      let Hs := fresh "Hs" in
      assert (Hs : s1 = s)
        by (apply (fun Hp : preserves (fun s0 : store => s0) m => Hp _ _ _ E); preserved);
      subst s1
  end.

Section Fresh_input.
Context `{Registry}.

Lemma DAE_fresh_input (a : DAE.kwargs) (s s' : store) (self : DAE.t) :
  truthy (DAE.inputs_hook a) = false ->
  DAE.__init__ a s = Returned self s' ->
  DAE.get_inputs self = [Placeholder (length s) 2 "X"] /\
  placeholders s' = placeholders s ++ [Placeholder (length s) 2 "X"].
Proof.
  intros Hhook Hnew. unfold DAE.__init__ in Hnew. rewrite Hhook in Hnew.
  cbv iota in Hnew.
  step Hnew as input_size s1 E1. by_pure E1.
  step Hnew as hidden_size s2 E2. by_pure E2.
  step Hnew as ha s3 E3. by_pure E3.
  step Hnew as va s4 E4. by_pure E4.
  step Hnew as cf s5 E5. by_pure E5.
  step Hnew as x s6 E6. evaluate E6. injection E6 as <- <-.
  cbv beta zeta in Hnew. split.
  - repeat step Hnew. reflexivity.
  - rewrite <- placeholders_snoc.
    refine (preserves_apply placeholders _ _ _ _ _ Hnew). preserved.
Qed.

Lemma Conv1D_fresh_input (a : Conv1D.kwargs) (s s' : store) (self : Conv1D.t) :
  truthy (Conv1D.inputs_hook a) = false ->
  Conv1D.__init__ a s = Returned self s' ->
  Conv1D.get_inputs self = [Placeholder (length s) 3 "X"] /\
  placeholders s' = placeholders s ++ [Placeholder (length s) 3 "X"].
Proof.
  intros Hhook Hnew. unfold Conv1D.__init__ in Hnew. rewrite Hhook in Hnew.
  cbv iota in Hnew.
  step Hnew as p s1 E1. evaluate E1. injection E1 as <- <-.
  cbv beta iota zeta in Hnew. split.
  - repeat step Hnew. all: reflexivity.
  - rewrite <- placeholders_snoc.
    refine (preserves_apply placeholders _ _ _ _ _ Hnew). preserved.
Qed.

Lemma Conv2D_fresh_input (a : Conv2D.kwargs) (s s' : store) (self : Conv2D.t) :
  truthy (Conv2D.inputs_hook a) = false ->
  Conv2D.__init__ a s = Returned self s' ->
  Conv2D.get_inputs self = [Placeholder (length s) 4 "X"] /\
  placeholders s' = placeholders s ++ [Placeholder (length s) 4 "X"].
Proof.
  intros Hhook Hnew. unfold Conv2D.__init__ in Hnew. rewrite Hhook in Hnew.
  cbv iota in Hnew.
  step Hnew as p s1 E1. evaluate E1. injection E1 as <- <-.
  cbv beta iota zeta in Hnew. split.
  - repeat step Hnew. all: reflexivity.
  - rewrite <- placeholders_snoc.
    refine (preserves_apply placeholders _ _ _ _ _ Hnew). preserved.
Qed.

Lemma ConvPoolLayer_fresh_input (a : ConvPoolLayer.kwargs) (s s' : store)
    (self : ConvPoolLayer.t) :
  truthy (ConvPoolLayer.inputs_hook a) = false ->
  ConvPoolLayer.__init__ a s = Returned self s' ->
  ConvPoolLayer.get_inputs self = [Placeholder (length s) 4 "X"] /\
  placeholders s' = placeholders s ++ [Placeholder (length s) 4 "X"].
Proof.
  intros Hhook Hnew. unfold ConvPoolLayer.__init__ in Hnew. rewrite Hhook in Hnew.
  cbv iota in Hnew.
  step Hnew as p s1 E1. evaluate E1. injection E1 as <- <-.
  cbv beta iota zeta in Hnew. split.
  - repeat step Hnew. all: reflexivity.
  - rewrite <- placeholders_snoc. pose proof build_computation_graph_pure as Hgraph.
    refine (preserves_apply placeholders _ _ _ _ _ Hnew). preserved.
Qed.

(** X5: without an inputs_hook (None or an empty one) a layer makes its own
    symbolic input, named X and of the rank of its class, and that is the one
    input it allocates. *)
Theorem unhooked_layer_allocates_its_input
    (c : call) (s s' : store) (m : model) :
  truthy (inputs_hook_of c) = false ->
  construct c s = Returned m s' ->
  get_inputs m = [Placeholder (length s) (input_rank c) "X"] /\
  placeholders s' = placeholders s ++ [Placeholder (length s) (input_rank c) "X"].
Proof.
  intros Hhook Hnew.
  destruct c as [a | a | a | a]; cbn [inputs_hook_of] in Hhook;
    unfold construct in Hnew; step Hnew as self s1 Eself; step Hnew;
    cbn [get_inputs input_rank].
  - eapply DAE_fresh_input; eauto.
  - eapply Conv1D_fresh_input; eauto.
  - eapply Conv2D_fresh_input; eauto.
  - eapply ConvPoolLayer_fresh_input; eauto.
Qed.
End Fresh_input.


Section DAE_more.
Context `{Registry}.


(** X7: without a hiddens_hook the prediction path encodes the input as it is:
    the hiddens are hidden_activation(x . W + b1), the output decodes them
    with the transposed weights, the compiled predict function takes the
    input, and no corruption lies on the way. *)
Theorem DAE_prediction_path_is_clean
    (a : DAE.kwargs) (s s' : store) (self : DAE.t) :
  truthy (DAE.hiddens_hook a) = false ->
  DAE.__init__ a s = Returned self s' ->
  exists x W b0 b1 ha va,
    DAE.get_inputs self = [x] /\
    DAE.get_params self = [W; b0; b1] /\
    DAE.resolved a (DAE.hidden_activation a) "hidden_activation" = VStr ha /\
    DAE.resolved a (DAE.visible_activation a) "visible_activation" = VStr va /\
    DAE.get_hiddens self = Call (Activation ha) [Add (Dot x W) b1] [] /\
    DAE.get_outputs self =
      Call (Activation va) [Add (Dot (DAE.get_hiddens self) (Transpose W)) b0] [] /\
    DAE.f_predict self = Function [x] (DAE.get_outputs self) /\
    (corrupts x = false -> corrupts W = false -> corrupts b0 = false ->
     corrupts b1 = false -> corrupts (DAE.get_outputs self) = false).
Proof.
  unfold DAE.__init__, DAE.resolved. intros Hhook Hnew.
  rewrite Hhook in Hnew. cbv iota in Hnew.
  invert_returned Hnew.
  all: tidy.
  all: do 6 eexists; repeat split; try reflexivity.
  all: intros Hx HW Hb0 Hb1; cbn; rewrite ?Hx, ?HW, ?Hb0, ?Hb1; reflexivity.
Qed.

Lemma hooked_size_returned (hook explicit : value) (args : dict) (name : string)
    (s s1 : store) (v : value) :
  (if truthy hook then getitem hook 0 else ret (py_or explicit (get args name))) s
    = Returned v s1 ->
  v = hooked_size hook explicit args name.
Proof.
  unfold hooked_size. destruct (truthy hook); intros E; invert_returned E.
  - destruct l; [discriminate | cbn in *; congruence].
  - reflexivity.
Qed.

Lemma shareds_snoc (s : store) (id : nat) (name : string) (shape : value)
    (init : initializer) :
  shareds (s ++ [Shared id name shape init]) = shareds s ++ [Shared id name shape init].
Proof. unfold shareds. rewrite List.filter_app. reflexivity. Qed.

(** X8: without a params_hook the autoencoder allocates, in this order, a
    weight matrix W of shape (input size, hidden size), a bias b0 of the input
    size and a bias b1 of the hidden size, where a size is item 0 of the hook
    of that side when there is one and else the argument or the configured
    size. *)
Theorem DAE_allocates_declared_shapes
    (a : DAE.kwargs) (s s' : store) (self : DAE.t) :
  let args := Model_init (DAE.config a) (DAE.defaults a) in
  let input_size := hooked_size (DAE.inputs_hook a) (DAE.input_size a) args "input_size" in
  let hidden_size := hooked_size (DAE.hiddens_hook a) (DAE.hidden_size a) args "hidden_size" in
  truthy (DAE.params_hook a) = false ->
  DAE.__init__ a s = Returned self s' ->
  exists n,
    DAE.get_params self =
      [ Shared n "W" (VTuple [input_size; hidden_size]) (Uniform None);
        Shared (n + 1) "b0" input_size (BiasInit None);
        Shared (n + 2) "b1" hidden_size (BiasInit None) ] /\
    shareds s' = shareds s ++ DAE.get_params self.
Proof.
  intros args input_size hidden_size Hhook Hnew.
  subst args input_size hidden_size. unfold hooked_size.
  unfold DAE.__init__ in Hnew. rewrite Hhook in Hnew. cbv iota in Hnew.
  step Hnew as isz s1 E1. by_pure E1. apply hooked_size_returned in E1 as ->.
  step Hnew as hsz s2 E2. by_pure E2. apply hooked_size_returned in E2 as ->.
  step Hnew as ha s3 E3. by_pure E3.
  step Hnew as va s4 E4. by_pure E4.
  step Hnew as cf s5 E5. by_pure E5.
  step Hnew as x s6 E6.
  assert (shareds s6 = shareds s) as Hs6.
  { refine (preserves_apply shareds _ _ _ _ _ E6). preserved. }
  step Hnew as p s7 E7. evaluate E7. injection E7 as <- <-.
  cbv beta iota zeta in Hnew.
  by_pure Hnew.
  repeat step Hnew. all: exists (length s6). cbn [DAE.get_params DAE.params]. split.
  - rewrite !length_app. cbn [length]. rewrite <- !Nat.add_assoc. reflexivity.
  - rewrite !shareds_snoc, Hs6, <- !app_assoc. reflexivity.
Qed.
End DAE_more.


(** What the first statements of a convolution layer return as the input
    shape. *)
Lemma hooked_input_shape_returned (hook explicit : value) (args : dict)
    (mk : M value) (s s1 : store) (p : value * value) :
  (if truthy hook then
     n <- py_len hook ;;
     assert (n =? 2)%nat InputsHookPair ;;;
     h0 <- getitem hook 0 ;;
     input <- getitem hook 1 ;;
     ret (py_or (py_or h0 explicit) (get args "input_shape"), input)
   else
     input <- mk ;;
     ret (py_or explicit (get args "input_shape"), input)) s = Returned p s1 ->
  fst p = hooked_input_shape hook explicit args.
Proof.
  unfold hooked_input_shape. destruct (truthy hook); intros E.
  - step E as n s2 Elen. step E as u s3 Eassert. step E as h0 s4 Ehead.
    step E as input s5 Einput. step E.
    invert_returned Ehead. destruct l; [discriminate | cbn in *; congruence].
  - step E as input s2 Einput. step E. reflexivity.
Qed.

Section Convolutions.
Context `{Registry}.

(** X9: with border mode 'valid' or 'full' Conv1D applies the convolution
    once, passing the stride as a one-item tuple, the resolved input shape
    (the shape of the hook first, then the argument, then the configuration),
    the filter shape and the border mode itself, and returns the activation of
    the result plus the bias broadcast over the filters; nothing is cropped. *)
Theorem Conv1D_valid_or_full_graph (a : Conv1D.kwargs) (s s' : store) (self : Conv1D.t) :
  let args := Model_init (Conv1D.config a) (Conv1D.defaults a) in
  let mode := py_or (Conv1D.border_mode a) (get args "border_mode") in
  let name := py_or (Conv1D.activation a) (get args "activation") in
  py_eq_str mode "valid" || py_eq_str mode "full" = true ->
  Conv1D.__init__ a s = Returned self s' ->
  exists act W b,
    Conv1D.get_params self = [W; b] /\
    (is_basestring name = false -> act = name) /\
    Conv1D.get_outputs self =
      Call act
        [Add (Convolve (py_or (Conv1D.convolution a) (get args "convolution"))
                (Conv1D.input self) W
                [("subsample", VTuple [py_or (Conv1D.stride a) (get args "stride")]);
                 ("image_shape",
                  hooked_input_shape (Conv1D.inputs_hook a) (Conv1D.input_shape a) args);
                 ("filter_shape", py_or (Conv1D.filter_shape a) (get args "filter_shape"));
                 ("border_mode", mode)])
             (DimShuffle b [None; Some 0; None])] [].
Proof.
  intros args mode name Hmode Hnew. subst args mode name.
  unfold Conv1D.__init__ in Hnew. rewrite Hmode in Hnew.
  step Hnew as p s1 Einputs. apply hooked_input_shape_returned in Einputs.
  destruct p as [input_shape input]. cbn [fst] in Einputs. subst input_shape.
  step Hnew as act s2 Eact. do 2 step Hnew. step Hnew as p s5 Eparams.
  destruct p as [| W [| b [| ? ?]]]; [step Hnew | step Hnew | | step Hnew].
  step Hnew as conved s6 Econv. step Hnew as output s7 Eout. step Hnew.
  invert_returned Econv. invert_returned Eout.
  exists act, W, b. repeat split.
  intros Hname. rewrite Hname in Eact. invert_returned Eact. reflexivity.
Qed.

(** X10: with border mode 'valid' or 'full' Conv2D applies the convolution
    once, passing its strides as they are, the resolved input shape, the
    filter shape and the border mode itself, and returns the activation of the
    result plus the bias broadcast over the filters, along both spatial axes;
    nothing is cropped. *)
Theorem Conv2D_valid_or_full_graph (a : Conv2D.kwargs) (s s' : store) (self : Conv2D.t) :
  let args := Model_init (Conv2D.config a) (Conv2D.defaults a) in
  let mode := py_or (Conv2D.border_mode a) (get args "border_mode") in
  let name := py_or (Conv2D.activation a) (get args "activation") in
  py_eq_str mode "valid" || py_eq_str mode "full" = true ->
  Conv2D.__init__ a s = Returned self s' ->
  exists act W b,
    Conv2D.get_params self = [W; b] /\
    (is_basestring name = false -> act = name) /\
    Conv2D.get_outputs self =
      Call act
        [Add (Convolve (py_or (Conv2D.convolution a) (get args "convolution"))
                (Conv2D.input self) W
                [("subsample", py_or (Conv2D.strides a) (get args "strides"));
                 ("image_shape",
                  hooked_input_shape (Conv2D.inputs_hook a) (Conv2D.input_shape a) args);
                 ("filter_shape", py_or (Conv2D.filter_shape a) (get args "filter_shape"));
                 ("border_mode", mode)])
             (DimShuffle b [None; Some 0; None; None])] [].
Proof.
  intros args mode name Hmode Hnew. subst args mode name.
  unfold Conv2D.__init__ in Hnew. rewrite Hmode in Hnew.
  step Hnew as p s1 Einputs. apply hooked_input_shape_returned in Einputs.
  destruct p as [input_shape input]. cbn [fst] in Einputs. subst input_shape.
  step Hnew as act s2 Eact. do 2 step Hnew. step Hnew as p s5 Eparams.
  destruct p as [| W [| b [| ? ?]]]; [step Hnew | step Hnew | | step Hnew].
  step Hnew as conved s6 Econv. step Hnew as output s7 Eout. step Hnew.
  invert_returned Econv. invert_returned Eout.
  exists act, W, b. repeat split.
  intros Hname. rewrite Hname in Eact. invert_returned Eact. reflexivity.
Qed.
End Convolutions.


(** [lockstep], naming what the common statement returned. *)
Tactic Notation "lockstep_naming" hyp(H) ident(a) ident(s) ident(E) :=
  cbv beta iota zeta delta [ret raise] in H;
  cbv beta iota zeta delta [ret raise];
  apply bind_Returned in H as (a & s & E & H);
  rewrite (bind_step _ _ _ _ _ E).

Section Convolution_errors.
Context `{Registry}.

Lemma Conv1D_invalid_border_mode (a : Conv1D.kwargs) (s : store) :
  let args := Model_init (Conv1D.config a) (Conv1D.defaults a) in
  let mode := py_or (Conv1D.border_mode a) (get args "border_mode") in
  py_eq_str mode "valid" = false -> py_eq_str mode "full" = false ->
  py_eq_str mode "same" = false ->
  (exists e, Conv1D.__init__ a s = Raised e) /\
  (forall self s0,
     Conv1D.__init__ (conv1d_with_border_mode a (VStr "valid")) s = Returned self s0 ->
     Conv1D.__init__ a s = Raised (RuntimeError mode)).
Proof.
  intros args mode Hvalid Hfull Hsame. subst args mode. split.
  - destruct (Conv1D.__init__ a s) as [e | self s'] eqn:Hnew; [eauto |]. exfalso.
    unfold Conv1D.__init__ in Hnew. rewrite Hvalid, Hfull, Hsame in Hnew.
    step Hnew as p s1 Einputs. destruct p as [input_shape input].
    do 3 step Hnew. step Hnew as p s5 Eparams.
    destruct p as [| W [| b [| ? ?]]]; [step Hnew | step Hnew | | step Hnew].
    step Hnew as conved s6 Econv. discriminate Econv.
  - intros self s0 Hnew. unfold Conv1D.__init__ in Hnew |- *.
    unfold conv1d_with_border_mode in Hnew.
    cbn [Conv1D.config Conv1D.defaults Conv1D.inputs_hook Conv1D.params_hook
         Conv1D.input_shape Conv1D.filter_shape Conv1D.stride Conv1D.weights_init
         Conv1D.weights_interval Conv1D.weights_mean Conv1D.weights_std
         Conv1D.bias_init Conv1D.border_mode Conv1D.activation Conv1D.convolution]
      in Hnew.
    rewrite Hvalid, Hfull, Hsame.
    lockstep_naming Hnew p s1 Einputs. destruct p as [input_shape input].
    do 3 lockstep Hnew. lockstep_naming Hnew p s5 Eparams.
    destruct p as [| W [| b [| ? ?]]]; [step Hnew | step Hnew | | step Hnew].
    reflexivity.
Qed.

Lemma Conv2D_invalid_border_mode (a : Conv2D.kwargs) (s : store) :
  let args := Model_init (Conv2D.config a) (Conv2D.defaults a) in
  let mode := py_or (Conv2D.border_mode a) (get args "border_mode") in
  py_eq_str mode "valid" = false -> py_eq_str mode "full" = false ->
  py_eq_str mode "same" = false ->
  (exists e, Conv2D.__init__ a s = Raised e) /\
  (forall self s0,
     Conv2D.__init__ (conv2d_with_border_mode a (VStr "valid")) s = Returned self s0 ->
     Conv2D.__init__ a s = Raised (RuntimeError mode)).
Proof.
  intros args mode Hvalid Hfull Hsame. subst args mode. split.
  - destruct (Conv2D.__init__ a s) as [e | self s'] eqn:Hnew; [eauto |]. exfalso.
    unfold Conv2D.__init__ in Hnew. rewrite Hvalid, Hfull, Hsame in Hnew.
    step Hnew as p s1 Einputs. destruct p as [input_shape input].
    do 3 step Hnew. step Hnew as p s5 Eparams.
    destruct p as [| W [| b [| ? ?]]]; [step Hnew | step Hnew | | step Hnew].
    step Hnew as conved s6 Econv. discriminate Econv.
  - intros self s0 Hnew. unfold Conv2D.__init__ in Hnew |- *.
    unfold conv2d_with_border_mode in Hnew.
    cbn [Conv2D.config Conv2D.defaults Conv2D.inputs_hook Conv2D.params_hook
         Conv2D.input_shape Conv2D.filter_shape Conv2D.strides Conv2D.weights_init
         Conv2D.weights_interval Conv2D.weights_mean Conv2D.weights_std
         Conv2D.bias_init Conv2D.border_mode Conv2D.activation Conv2D.convolution]
      in Hnew.
    rewrite Hvalid, Hfull, Hsame.
    lockstep_naming Hnew p s1 Einputs. destruct p as [input_shape input].
    do 3 lockstep Hnew. lockstep_naming Hnew p s5 Eparams.
    destruct p as [| W [| b [| ? ?]]]; [step Hnew | step Hnew | | step Hnew].
    reflexivity.
Qed.

End Convolution_errors.


Lemma getitem_0_returned (v x : value) (s s1 : store) :
  getitem v 0 s = Returned x s1 -> exists rest, items_of v = Some (x :: rest).
Proof.
  intros E. invert_returned E. destruct l as [| y rest]; [discriminate |].
  cbn in *. exists rest. congruence.
Qed.

Section Weights.
Context `{Registry}.

Lemma Conv1D_gaussian_weights (a : Conv1D.kwargs) (s s' : store) (self : Conv1D.t)
    (w : string) :
  let args := Model_init (Conv1D.config a) (Conv1D.defaults a) in
  let filter_shape := py_or (Conv1D.filter_shape a) (get args "filter_shape") in
  truthy (Conv1D.params_hook a) = false ->
  py_or (Conv1D.weights_init a) (get args "weights_init") = VStr w ->
  lower w = "gaussian" ->
  Conv1D.__init__ a s = Returned self s' ->
  exists n num_filters rest,
    items_of filter_shape = Some (num_filters :: rest) /\
    Conv1D.get_params self =
      [ Shared n "W" filter_shape
          (Gaussian (Some (py_or (Conv1D.weights_mean a) (get args "weights_mean")))
                    (Some (py_or (Conv1D.weights_std a) (get args "weights_std"))));
        Shared (n + 1) "b" (VTuple [num_filters])
          (BiasInit (Some (Conv1D.bias_init a))) ] /\
    shareds s' = shareds s ++ Conv1D.get_params self.
Proof.
  intros args filter_shape Hhook Hinit Hlower Hnew. subst args filter_shape.
  unfold Conv1D.__init__ in Hnew. rewrite Hhook, Hinit in Hnew.
  step Hnew as p s1 Einputs. destruct p as [input_shape input].
  assert (shareds s1 = shareds s) as Hs1.
  { refine (preserves_apply shareds _ _ _ _ _ Einputs). preserved. }
  step Hnew as act s2 Eact. by_pure Eact.
  step Hnew as num_filters s3 Enum. by_pure Enum.
  step Hnew as filter_length s4 Elen. by_pure Elen.
  step Hnew as p s5 Eparams.
  cbn [py_lower] in Eparams. step Eparams as wi s6 Ewi. injection Ewi as <- <-.
  rewrite Hlower in Eparams. simpl (String.eqb _ _) in Eparams.
  evaluate Eparams. injection Eparams as <- <-.
  cbv beta iota zeta in Hnew. by_pure Hnew.
  destruct (getitem_0_returned _ _ _ _ Enum) as [rest Hitems].
  repeat step Hnew.
  all: exists (length s1), num_filters, rest; cbn [Conv1D.get_params Conv1D.params].
  all: split; [exact Hitems |]; split.
  all: rewrite ?length_app; cbn [length]; try reflexivity.
  all: rewrite !shareds_snoc, Hs1, <- !app_assoc; reflexivity.
Qed.

Lemma Conv1D_unknown_weights_init (a : Conv1D.kwargs) (s : store) :
  let args := Model_init (Conv1D.config a) (Conv1D.defaults a) in
  truthy (Conv1D.params_hook a) = false ->
  (forall w, py_or (Conv1D.weights_init a) (get args "weights_init") = VStr w ->
             lower w <> "gaussian") ->
  (forall u, get args "weights_init" = VStr u -> lower u <> "uniform") ->
  exists e, Conv1D.__init__ a s = Raised e.
Proof.
  intros args Hhook Hgaussian Huniform. subst args.
  destruct (Conv1D.__init__ a s) as [e | self s'] eqn:Hnew; [eauto |]. exfalso.
  unfold Conv1D.__init__ in Hnew. rewrite Hhook in Hnew.
  step Hnew as p s1 Einputs. destruct p as [input_shape input].
  do 3 step Hnew. step Hnew as p s5 Eparams.
  step Eparams as wi s6 Ewi. step Eparams as W s7 EW.
  unfold py_lower in Ewi.
  destruct (py_or (Conv1D.weights_init a) _) eqn:Hwi; try discriminate Ewi.
  injection Ewi as <- <-.
  match type of EW with
  | context [String.eqb (lower ?w) "gaussian"] =>
      destruct (String.eqb_spec (lower w) "gaussian") as [Heq | _]
  end.
  - exact (Hgaussian _ eq_refl Heq).
  - step EW as wi' s8 Ewi'. unfold py_lower in Ewi'.
    destruct (get _ "weights_init") eqn:Hcfg; try discriminate Ewi'.
    injection Ewi' as <- <-.
    match type of EW with
    | context [String.eqb (lower ?u) "uniform"] =>
        destruct (String.eqb_spec (lower u) "uniform") as [Heq | _]
    end.
    + exact (Huniform _ eq_refl Heq).
    + discriminate EW.
Qed.

Lemma Conv1D_callable_activation_skips_lookup (R1 R2 : Registry) (a : Conv1D.kwargs) :
  let args := Model_init (Conv1D.config a) (Conv1D.defaults a) in
  is_basestring (py_or (Conv1D.activation a) (get args "activation")) = false ->
  Conv1D.__init__ (H := R1) a = Conv1D.__init__ (H := R2) a.
Proof.
  intros args Hname. subst args. unfold Conv1D.__init__. rewrite Hname. reflexivity.
Qed.

Lemma Conv1D_activation_must_be_callable (a : Conv1D.kwargs) (s : store)
    (shape x : value) :
  let args := Model_init (Conv1D.config a) (Conv1D.defaults a) in
  let name := py_or (Conv1D.activation a) (get args "activation") in
  truthy (Conv1D.inputs_hook a) = false \/
    items_of (Conv1D.inputs_hook a) = Some [shape; x] ->
  is_basestring name = false -> callable name = false ->
  Conv1D.__init__ a s = Raised (AssertionError ActivationCallable).
Proof.
  intros args name Hhook Hname Hcall. subst args name.
  unfold Conv1D.__init__. rewrite Hname, Hcall.
  destruct Hhook as [Hhook | Hhook].
  - rewrite Hhook. reflexivity.
  - rewrite (items_of_truthy _ _ _ Hhook).
    cbv beta iota zeta delta [bind py_len getitem]. rewrite Hhook. reflexivity.
Qed.

(** X12: a Conv1D is only ever built from a filter shape that is a sequence of
    at least three items (filters, channels, length); a missing filter shape
    builds nothing. *)
Theorem Conv1D_needs_three_extents (a : Conv1D.kwargs) (s s' : store) (self : Conv1D.t) :
  let args := Model_init (Conv1D.config a) (Conv1D.defaults a) in
  Conv1D.__init__ a s = Returned self s' ->
  exists l,
    items_of (py_or (Conv1D.filter_shape a) (get args "filter_shape")) = Some l /\
    (3 <= length l)%nat.
Proof.
  intros args Hnew. subst args. unfold Conv1D.__init__ in Hnew.
  step Hnew as p s1 Einputs. destruct p as [input_shape input].
  do 2 step Hnew. step Hnew as filter_length s4 Elen.
  invert_returned Elen. exists l. split; [reflexivity |].
  apply lookup_lt_Some in Heqo0. lia.
Qed.
Lemma Conv2D_gaussian_weights (a : Conv2D.kwargs) (s s' : store) (self : Conv2D.t)
    (w : string) :
  let args := Model_init (Conv2D.config a) (Conv2D.defaults a) in
  let filter_shape := py_or (Conv2D.filter_shape a) (get args "filter_shape") in
  truthy (Conv2D.params_hook a) = false ->
  py_or (Conv2D.weights_init a) (get args "weights_init") = VStr w ->
  lower w = "gaussian" ->
  Conv2D.__init__ a s = Returned self s' ->
  exists n num_filters rest,
    items_of filter_shape = Some (num_filters :: rest) /\
    Conv2D.get_params self =
      [ Shared n "W" filter_shape
          (Gaussian (Some (py_or (Conv2D.weights_mean a) (get args "weights_mean")))
                    (Some (py_or (Conv2D.weights_std a) (get args "weights_std"))));
        Shared (n + 1) "b" (VTuple [num_filters])
          (BiasInit (Some (Conv2D.bias_init a))) ] /\
    shareds s' = shareds s ++ Conv2D.get_params self.
Proof.
  intros args filter_shape Hhook Hinit Hlower Hnew. subst args filter_shape.
  unfold Conv2D.__init__ in Hnew. rewrite Hhook, Hinit in Hnew.
  step Hnew as p s1 Einputs. destruct p as [input_shape input].
  assert (shareds s1 = shareds s) as Hs1.
  { refine (preserves_apply shareds _ _ _ _ _ Einputs). preserved. }
  step Hnew as act s2 Eact. by_pure Eact.
  step Hnew as num_filters s3 Enum. by_pure Enum.
  step Hnew as filter_size s4 Elen. by_pure Elen.
  step Hnew as p s5 Eparams.
  cbn [py_lower] in Eparams. step Eparams as wi s6 Ewi. injection Ewi as <- <-.
  rewrite Hlower in Eparams. simpl (String.eqb _ _) in Eparams.
  evaluate Eparams. injection Eparams as <- <-.
  cbv beta iota zeta in Hnew. by_pure Hnew.
  destruct (getitem_0_returned _ _ _ _ Enum) as [rest Hitems].
  repeat step Hnew.
  all: exists (length s1), num_filters, rest; cbn [Conv2D.get_params Conv2D.params].
  all: split; [exact Hitems |]; split.
  all: rewrite ?length_app; cbn [length]; try reflexivity.
  all: rewrite !shareds_snoc, Hs1, <- !app_assoc; reflexivity.
Qed.

Lemma Conv2D_unknown_weights_init (a : Conv2D.kwargs) (s : store) :
  let args := Model_init (Conv2D.config a) (Conv2D.defaults a) in
  truthy (Conv2D.params_hook a) = false ->
  (forall w, py_or (Conv2D.weights_init a) (get args "weights_init") = VStr w ->
             lower w <> "gaussian") ->
  (forall u, get args "weights_init" = VStr u -> lower u <> "uniform") ->
  exists e, Conv2D.__init__ a s = Raised e.
Proof.
  intros args Hhook Hgaussian Huniform. subst args.
  destruct (Conv2D.__init__ a s) as [e | self s'] eqn:Hnew; [eauto |]. exfalso.
  unfold Conv2D.__init__ in Hnew. rewrite Hhook in Hnew.
  step Hnew as p s1 Einputs. destruct p as [input_shape input].
  do 3 step Hnew. step Hnew as p s5 Eparams.
  step Eparams as wi s6 Ewi. step Eparams as W s7 EW.
  unfold py_lower in Ewi.
  destruct (py_or (Conv2D.weights_init a) _) eqn:Hwi; try discriminate Ewi.
  injection Ewi as <- <-.
  match type of EW with
  | context [String.eqb (lower ?w) "gaussian"] =>
      destruct (String.eqb_spec (lower w) "gaussian") as [Heq | _]
  end.
  - exact (Hgaussian _ eq_refl Heq).
  - step EW as wi' s8 Ewi'. unfold py_lower in Ewi'.
    destruct (get _ "weights_init") eqn:Hcfg; try discriminate Ewi'.
    injection Ewi' as <- <-.
    match type of EW with
    | context [String.eqb (lower ?u) "uniform"] =>
        destruct (String.eqb_spec (lower u) "uniform") as [Heq | _]
    end.
    + exact (Huniform _ eq_refl Heq).
    + discriminate EW.
Qed.

Lemma Conv2D_callable_activation_skips_lookup (R1 R2 : Registry) (a : Conv2D.kwargs) :
  let args := Model_init (Conv2D.config a) (Conv2D.defaults a) in
  is_basestring (py_or (Conv2D.activation a) (get args "activation")) = false ->
  Conv2D.__init__ (H := R1) a = Conv2D.__init__ (H := R2) a.
Proof.
  intros args Hname. subst args. unfold Conv2D.__init__. rewrite Hname. reflexivity.
Qed.

Lemma Conv2D_activation_must_be_callable (a : Conv2D.kwargs) (s : store)
    (shape x : value) :
  let args := Model_init (Conv2D.config a) (Conv2D.defaults a) in
  let name := py_or (Conv2D.activation a) (get args "activation") in
  truthy (Conv2D.inputs_hook a) = false \/
    items_of (Conv2D.inputs_hook a) = Some [shape; x] ->
  is_basestring name = false -> callable name = false ->
  Conv2D.__init__ a s = Raised (AssertionError ActivationCallable).
Proof.
  intros args name Hhook Hname Hcall. subst args name.
  unfold Conv2D.__init__. rewrite Hname, Hcall.
  destruct Hhook as [Hhook | Hhook].
  - rewrite Hhook. reflexivity.
  - rewrite (items_of_truthy _ _ _ Hhook).
    cbv beta iota zeta delta [bind py_len getitem]. rewrite Hhook. reflexivity.
Qed.


(** X13: without a params_hook, Conv1D and Conv2D whose weights_init reads
    'gaussian' in any letter case allocate a Gaussian weight tensor of the
    resolved filter shape, mean and standard deviation, and then a bias with
    one entry per filter, initialised from the bias_init argument alone. *)
Theorem gaussian_weights_are_allocated
    (c : call) (s s' : store) (m : model) (o : options) (w : string) :
  options_of c = Some o ->
  truthy (params_hook_of c) = false ->
  opt_weights_init o = VStr w -> lower w = "gaussian" ->
  construct c s = Returned m s' ->
  exists n num_filters rest,
    items_of (opt_filter_shape o) = Some (num_filters :: rest) /\
    get_params m =
      [ Shared n "W" (opt_filter_shape o)
          (Gaussian (Some (opt_weights_mean o)) (Some (opt_weights_std o)));
        Shared (n + 1) "b" (VTuple [num_filters]) (BiasInit (Some (passed_bias_init o))) ] /\
    shareds s' = shareds s ++ get_params m.
Proof.
  intros Ho Hhook Hinit Hlower Hnew.
  destruct c as [a | a | a | a]; try discriminate Ho;
    cbn [options_of] in Ho; injection Ho as <-;
    cbn [opt_weights_init params_hook_of] in Hinit, Hhook;
    cbn [opt_filter_shape opt_weights_mean opt_weights_std passed_bias_init];
    unfold construct in Hnew; step Hnew as self s1 Eself; step Hnew; cbn [get_params].
  - eapply Conv1D_gaussian_weights; eauto.
  - eapply Conv2D_gaussian_weights; eauto.
Qed.

(** X14: without a params_hook, Conv1D and Conv2D build no layer when the
    resolved weights_init is not 'gaussian' and the configured one is not
    'uniform' (in any letter case, or not strings at all). *)
Theorem unknown_weights_init_is_refused (c : call) (s : store) (o : options) :
  options_of c = Some o ->
  truthy (params_hook_of c) = false ->
  (forall w, opt_weights_init o = VStr w -> lower w <> "gaussian") ->
  (forall u, configured_weights_init o = VStr u -> lower u <> "uniform") ->
  exists e, construct c s = Raised e.
Proof.
  intros Ho Hhook Hgaussian Huniform.
  destruct c as [a | a | a | a]; try discriminate Ho;
    cbn [options_of] in Ho; injection Ho as <-;
    cbn [opt_weights_init configured_weights_init params_hook_of]
      in Hhook, Hgaussian, Huniform;
    unfold construct.
  - destruct (Conv1D_unknown_weights_init a s Hhook Hgaussian Huniform) as [e He].
    exists e. apply bind_Raised, He.
  - destruct (Conv2D_unknown_weights_init a s Hhook Hgaussian Huniform) as [e He].
    exists e. apply bind_Raised, He.
Qed.

(** X15: Conv1D and Conv2D whose activation is not given by name (their
    default is the rectifier function itself) are built without a look at the
    registry of activation names: the construction is the same whatever names
    are known. *)
Theorem function_activation_skips_lookup (R1 R2 : Registry) (c : call) (o : options) :
  options_of c = Some o ->
  is_basestring (opt_activation o) = false ->
  construct (H := R1) c = construct (H := R2) c.
Proof.
  intros Ho Hname.
  destruct c as [a | a | a | a]; try discriminate Ho;
    cbn [options_of] in Ho; injection Ho as <-; cbn [opt_activation] in Hname;
    unfold construct.
  - rewrite (Conv1D_callable_activation_skips_lookup R1 R2 a Hname). reflexivity.
  - rewrite (Conv2D_callable_activation_skips_lookup R1 R2 a Hname). reflexivity.
Qed.

End Weights.

Section Plain_layer.
Context `{Registry}.



Lemma ConvPoolLayer_activation_must_be_callable (a : ConvPoolLayer.kwargs) (s : store)
    (shape x : value) :
  let args := Model_init (ConvPoolLayer.config a) (ConvPoolLayer.defaults a) in
  let name := py_or (ConvPoolLayer.activation a) (get args "activation") in
  truthy (ConvPoolLayer.inputs_hook a) = false \/
    items_of (ConvPoolLayer.inputs_hook a) = Some [shape; x] ->
  is_basestring name = false -> callable name = false ->
  ConvPoolLayer.__init__ a s = Raised (AssertionError ActivationCallable).
Proof.
  intros args name Hhook Hname Hcall. subst args name.
  unfold ConvPoolLayer.__init__. rewrite Hname, Hcall.
  destruct Hhook as [Hhook | Hhook].
  - rewrite Hhook. reflexivity.
  - rewrite (items_of_truthy _ _ _ Hhook).
    cbv beta iota zeta delta [bind py_len getitem]. rewrite Hhook. reflexivity.
Qed.

End Plain_layer.

Section Parameter_count.
Context `{Registry}.

End Parameter_count.

Section Uniform.
Context `{Registry}.

Lemma Conv1D_uniform_weights (a : Conv1D.kwargs) (s s' : store) (self : Conv1D.t)
    (w u : string) :
  let args := Model_init (Conv1D.config a) (Conv1D.defaults a) in
  let filter_shape := py_or (Conv1D.filter_shape a) (get args "filter_shape") in
  truthy (Conv1D.params_hook a) = false ->
  py_or (Conv1D.weights_init a) (get args "weights_init") = VStr w ->
  lower w <> "gaussian" ->
  get args "weights_init" = VStr u -> lower u = "uniform" ->
  Conv1D.__init__ a s = Returned self s' ->
  exists n num_filters rest,
    items_of filter_shape = Some (num_filters :: rest) /\
    Conv1D.get_params self =
      [ Shared n "W" filter_shape
          (Uniform (Some (py_or (Conv1D.weights_interval a) (get args "weights_interval"))));
        Shared (n + 1) "b" (VTuple [num_filters])
          (BiasInit (Some (Conv1D.bias_init a))) ] /\
    shareds s' = shareds s ++ Conv1D.get_params self.
Proof.
  intros args filter_shape Hhook Hinit Hlower Hcfg Hlower' Hnew. subst args filter_shape.
  unfold Conv1D.__init__ in Hnew. rewrite Hhook, Hinit, Hcfg in Hnew.
  step Hnew as p s1 Einputs. destruct p as [input_shape input].
  assert (shareds s1 = shareds s) as Hs1.
  { refine (preserves_apply shareds _ _ _ _ _ Einputs). preserved. }
  step Hnew as act s2 Eact. by_pure Eact.
  step Hnew as num_filters s3 Enum. by_pure Enum.
  step Hnew as filter_length s4 Elen. by_pure Elen.
  step Hnew as p s5 Eparams.
  cbn [py_lower] in Eparams. step Eparams as wi s6 Ewi. injection Ewi as <- <-.
  apply String.eqb_neq in Hlower. rewrite Hlower in Eparams.
  step Eparams as W s7 EW. step EW as wi' s8 Ewi'. injection Ewi' as <- <-.
  rewrite Hlower' in EW. simpl (String.eqb _ _) in EW.
  evaluate EW. injection EW as <- <-.
  evaluate Eparams. injection Eparams as <- <-.
  cbv beta iota zeta in Hnew. by_pure Hnew.
  destruct (getitem_0_returned _ _ _ _ Enum) as [rest Hitems].
  repeat step Hnew.
  all: exists (length s1), num_filters, rest; cbn [Conv1D.get_params Conv1D.params].
  all: split; [exact Hitems |]; split.
  all: rewrite ?length_app; cbn [length]; try reflexivity.
  all: rewrite !shareds_snoc, Hs1, <- !app_assoc; reflexivity.
Qed.
Lemma Conv2D_uniform_weights (a : Conv2D.kwargs) (s s' : store) (self : Conv2D.t)
    (w u : string) :
  let args := Model_init (Conv2D.config a) (Conv2D.defaults a) in
  let filter_shape := py_or (Conv2D.filter_shape a) (get args "filter_shape") in
  truthy (Conv2D.params_hook a) = false ->
  py_or (Conv2D.weights_init a) (get args "weights_init") = VStr w ->
  lower w <> "gaussian" ->
  get args "weights_init" = VStr u -> lower u = "uniform" ->
  Conv2D.__init__ a s = Returned self s' ->
  exists n num_filters rest,
    items_of filter_shape = Some (num_filters :: rest) /\
    Conv2D.get_params self =
      [ Shared n "W" filter_shape
          (Uniform (Some (py_or (Conv2D.weights_interval a) (get args "weights_interval"))));
        Shared (n + 1) "b" (VTuple [num_filters])
          (BiasInit (Some (Conv2D.bias_init a))) ] /\
    shareds s' = shareds s ++ Conv2D.get_params self.
Proof.
  intros args filter_shape Hhook Hinit Hlower Hcfg Hlower' Hnew. subst args filter_shape.
  unfold Conv2D.__init__ in Hnew. rewrite Hhook, Hinit, Hcfg in Hnew.
  step Hnew as p s1 Einputs. destruct p as [input_shape input].
  assert (shareds s1 = shareds s) as Hs1.
  { refine (preserves_apply shareds _ _ _ _ _ Einputs). preserved. }
  step Hnew as act s2 Eact. by_pure Eact.
  step Hnew as num_filters s3 Enum. by_pure Enum.
  step Hnew as filter_size s4 Elen. by_pure Elen.
  step Hnew as p s5 Eparams.
  cbn [py_lower] in Eparams. step Eparams as wi s6 Ewi. injection Ewi as <- <-.
  apply String.eqb_neq in Hlower. rewrite Hlower in Eparams.
  step Eparams as W s7 EW. step EW as wi' s8 Ewi'. injection Ewi' as <- <-.
  rewrite Hlower' in EW. simpl (String.eqb _ _) in EW.
  evaluate EW. injection EW as <- <-.
  evaluate Eparams. injection Eparams as <- <-.
  cbv beta iota zeta in Hnew. by_pure Hnew.
  destruct (getitem_0_returned _ _ _ _ Enum) as [rest Hitems].
  repeat step Hnew.
  all: exists (length s1), num_filters, rest; cbn [Conv2D.get_params Conv2D.params].
  all: split; [exact Hitems |]; split.
  all: rewrite ?length_app; cbn [length]; try reflexivity.
  all: rewrite !shareds_snoc, Hs1, <- !app_assoc; reflexivity.
Qed.

(** X20: without a params_hook, Conv1D and Conv2D whose resolved weights_init
    is a string other than 'gaussian' allocate uniform weights when the
    configured weights_init reads 'uniform' in any letter case: a weight
    tensor of the resolved filter shape and interval, and then the bias, one
    entry per filter. *)
Theorem uniform_weights_are_allocated
    (c : call) (s s' : store) (m : model) (o : options) (w u : string) :
  options_of c = Some o ->
  truthy (params_hook_of c) = false ->
  opt_weights_init o = VStr w -> lower w <> "gaussian" ->
  configured_weights_init o = VStr u -> lower u = "uniform" ->
  construct c s = Returned m s' ->
  exists n num_filters rest,
    items_of (opt_filter_shape o) = Some (num_filters :: rest) /\
    get_params m =
      [ Shared n "W" (opt_filter_shape o) (Uniform (Some (opt_weights_interval o)));
        Shared (n + 1) "b" (VTuple [num_filters]) (BiasInit (Some (passed_bias_init o))) ] /\
    shareds s' = shareds s ++ get_params m.
Proof.
  intros Ho Hhook Hinit Hlower Hcfg Hlower' Hnew.
  destruct c as [a | a | a | a]; try discriminate Ho;
    cbn [options_of] in Ho; injection Ho as <-;
    cbn [opt_weights_init configured_weights_init params_hook_of] in Hinit, Hcfg, Hhook;
    cbn [opt_filter_shape opt_weights_interval passed_bias_init];
    unfold construct in Hnew; step Hnew as self s1 Eself; step Hnew; cbn [get_params].
  - eapply Conv1D_uniform_weights; eauto.
  - eapply Conv2D_uniform_weights; eauto.
Qed.
End Uniform.

Section Input_shape.
Context `{Registry}.

End Input_shape.

(** ** The further properties at work *)

(** An autoencoder built with no argument makes its own input. *)
Lemma unhooked_layer_allocates_its_input_witness :
  exists m s',
    construct (H := registry) (NewDAE DAE.no_kwargs) caller_store = Returned m s' /\
    get_inputs m
      = [Placeholder (length caller_store) (input_rank (NewDAE DAE.no_kwargs)) "X"] /\
    placeholders s'
      = placeholders caller_store
        ++ [Placeholder (length caller_store) (input_rank (NewDAE DAE.no_kwargs)) "X"].
Proof.
  eexists _, _. split; [vm_compute; reflexivity |].
  eapply (unhooked_layer_allocates_its_input (H := registry)
            (NewDAE DAE.no_kwargs) caller_store);
    vm_compute; reflexivity.
Defined.

(** A Conv1D on the caller's input and two of the caller's parameters. *)
Lemma hooked_layer_allocates_nothing_witness :
  exists m s',
    construct (H := registry)
      (NewConv1D (conv1d_call (VTuple [P 1; P 2]) VNone VNone None)) caller_store
      = Returned m s' /\
    s' = caller_store.
Proof.
  eexists _, _. split; [vm_compute; reflexivity |].
  eapply (hooked_layer_allocates_nothing (H := registry)
            (NewConv1D (conv1d_call (VTuple [P 1; P 2]) VNone VNone None)) caller_store
            _ _ (shape [2; 3; 10]) (P 1) [X] [P 2]);
    vm_compute; reflexivity.
Defined.

Lemma params_hook_round_trip_witness :
  exists m s',
    construct (H := registry)
      (NewConv2D (conv2d_call (VTuple [P 1; P 2]) VNone VNone None)) caller_store
      = Returned m s' /\
    get_params m = [P 1; P 2] /\ shareds s' = shareds caller_store.
Proof.
  eexists _, _. split; [vm_compute; reflexivity |].
  eapply (params_hook_round_trip (H := registry)
            (NewConv2D (conv2d_call (VTuple [P 1; P 2]) VNone VNone None)) caller_store
            _ _ (P 1) [P 2]);
    vm_compute; reflexivity.
Defined.



Lemma DAE_prediction_path_is_clean_witness :
  exists self s',
    DAE.__init__ (H := registry) DAE.no_kwargs [] = Returned self s' /\
    exists x W b0 b1 ha va,
      DAE.get_inputs self = [x] /\
      DAE.get_params self = [W; b0; b1] /\
      DAE.resolved DAE.no_kwargs (DAE.hidden_activation DAE.no_kwargs) "hidden_activation"
        = VStr ha /\
      DAE.resolved DAE.no_kwargs (DAE.visible_activation DAE.no_kwargs) "visible_activation"
        = VStr va /\
      DAE.get_hiddens self = Call (Activation ha) [Add (Dot x W) b1] [] /\
      DAE.get_outputs self =
        Call (Activation va) [Add (Dot (DAE.get_hiddens self) (Transpose W)) b0] [] /\
      DAE.f_predict self = Function [x] (DAE.get_outputs self) /\
      (corrupts x = false -> corrupts W = false -> corrupts b0 = false ->
       corrupts b1 = false -> corrupts (DAE.get_outputs self) = false).
Proof.
  eexists _, _. split; [vm_compute; reflexivity |].
  eapply (DAE_prediction_path_is_clean (H := registry) DAE.no_kwargs []);
    vm_compute; reflexivity.
Defined.

(** An autoencoder on an input of size 784, with the default 1000 hidden
    units. *)
Lemma DAE_allocates_declared_shapes_witness :
  exists self s',
    DAE.__init__ (H := registry) (dae_call (VTuple [VInt 784; X]) VNone VNone VNone)
      caller_store = Returned self s' /\
    exists n,
      DAE.get_params self =
        [ Shared n "W" (VTuple [VInt 784; VInt 1000]) (Uniform None);
          Shared (n + 1) "b0" (VInt 784) (BiasInit None);
          Shared (n + 2) "b1" (VInt 1000) (BiasInit None) ] /\
      shareds s' = shareds caller_store ++ DAE.get_params self.
Proof.
  eexists _, _. split; [vm_compute; reflexivity |].
  eapply (DAE_allocates_declared_shapes (H := registry)
            (dae_call (VTuple [VInt 784; X]) VNone VNone VNone) caller_store);
    vm_compute; reflexivity.
Defined.

(** A Conv1D with the default border mode 'valid' and the default rectifier
    function. *)
Lemma Conv1D_valid_or_full_graph_witness :
  exists self s',
    Conv1D.__init__ (H := registry) (conv1d_call VNone VNone VNone None) caller_store
      = Returned self s' /\
    exists act W b,
      Conv1D.get_params self = [W; b] /\
      (is_basestring (Builtin "rectifier") = false -> act = Builtin "rectifier") /\
      Conv1D.get_outputs self =
        Call act
          [Add (Convolve (Builtin "conv1d_mc0") (Conv1D.input self) W
                  [("subsample", VTuple [VInt 1]);
                   ("image_shape", shape [2; 3; 10]);
                   ("filter_shape", shape [4; 3; 5]);
                   ("border_mode", VStr "valid")])
               (DimShuffle b [None; Some 0; None])] [].
Proof.
  eexists _, _. split; [vm_compute; reflexivity |].
  eapply (Conv1D_valid_or_full_graph (H := registry)
            (conv1d_call VNone VNone VNone None) caller_store);
    vm_compute; reflexivity.
Defined.

(** A Conv2D with border mode 'full'. *)
Lemma Conv2D_valid_or_full_graph_witness :
  exists self s',
    Conv2D.__init__ (H := registry) (conv2d_call VNone VNone (VStr "full") None) caller_store
      = Returned self s' /\
    exists act W b,
      Conv2D.get_params self = [W; b] /\
      (is_basestring (Builtin "rectifier") = false -> act = Builtin "rectifier") /\
      Conv2D.get_outputs self =
        Call act
          [Add (Convolve (Builtin "T.nnet.conv2d") (Conv2D.input self) W
                  [("subsample", shape [1; 1]);
                   ("image_shape", shape [2; 3; 8; 8]);
                   ("filter_shape", shape [4; 3; 5; 5]);
                   ("border_mode", VStr "full")])
               (DimShuffle b [None; Some 0; None; None])] [].
Proof.
  eexists _, _. split; [vm_compute; reflexivity |].
  eapply (Conv2D_valid_or_full_graph (H := registry)
            (conv2d_call VNone VNone (VStr "full") None) caller_store);
    vm_compute; reflexivity.
Defined.


(** weights_init='Gaussian'. *)
Lemma gaussian_weights_are_allocated_witness :
  exists m s',
    construct (H := registry)
      (NewConv1D (conv1d_call VNone (VStr "Gaussian") VNone None)) caller_store
      = Returned m s' /\
    exists n num_filters rest,
      items_of (shape [4; 3; 5]) = Some (num_filters :: rest) /\
      get_params m =
        [ Shared n "W" (shape [4; 3; 5])
            (Gaussian (Some (VInt 0)) (Some (VFloat (5 # 1000))));
          Shared (n + 1) "b" (VTuple [num_filters]) (BiasInit (Some VNone)) ] /\
      shareds s' = shareds caller_store ++ get_params m.
Proof.
  eexists _, _. split; [vm_compute; reflexivity |].
  eapply (gaussian_weights_are_allocated (H := registry)
            (NewConv1D (conv1d_call VNone (VStr "Gaussian") VNone None)) caller_store
            _ _ _ "Gaussian" eq_refl);
    vm_compute; reflexivity.
Defined.

(** The defaults: weights_init 'uniform' with the interval 'montreal'. *)
Lemma uniform_weights_are_allocated_witness :
  exists m s',
    construct (H := registry)
      (NewConv2D (conv2d_call VNone VNone VNone None)) caller_store
      = Returned m s' /\
    exists n num_filters rest,
      items_of (shape [4; 3; 5; 5]) = Some (num_filters :: rest) /\
      get_params m =
        [ Shared n "W" (shape [4; 3; 5; 5]) (Uniform (Some (VStr "montreal")));
          Shared (n + 1) "b" (VTuple [num_filters]) (BiasInit (Some VNone)) ] /\
      shareds s' = shareds caller_store ++ get_params m.
Proof.
  eexists _, _. split; [vm_compute; reflexivity |].
  eapply (uniform_weights_are_allocated (H := registry)
            (NewConv2D (conv2d_call VNone VNone VNone None)) caller_store
            _ _ _ "uniform" "uniform" eq_refl).
  all: try (vm_compute; reflexivity).
  vm_compute. discriminate.
Defined.

(** weights_init='xavier', passed and configured. *)
Lemma unknown_weights_init_is_refused_witness :
  exists e,
    construct (H := registry)
      (NewConv1D (conv1d_call VNone (VStr "xavier") VNone
                    (Some {[ "weights_init" := VStr "xavier" ]}))) caller_store
    = Raised e.
Proof.
  eapply (unknown_weights_init_is_refused (H := registry)
            (NewConv1D (conv1d_call VNone (VStr "xavier") VNone
                          (Some {[ "weights_init" := VStr "xavier" ]}))) caller_store
            _ eq_refl).
  - vm_compute. reflexivity.
  - intros w Hw. vm_compute in Hw. injection Hw as <-. vm_compute. discriminate.
  - intros u Hu. vm_compute in Hu. injection Hu as <-. vm_compute. discriminate.
Defined.

(** The default activation of Conv1D is the rectifier function, not its
    name. *)
Lemma function_activation_skips_lookup_witness :
  construct (H := registry) (NewConv1D (conv1d_call VNone VNone VNone None))
  = construct (H := bare_registry) (NewConv1D (conv1d_call VNone VNone VNone None)).
Proof.
  eapply (function_activation_skips_lookup registry bare_registry
            (NewConv1D (conv1d_call VNone VNone VNone None)) _ eq_refl).
  vm_compute. reflexivity.
Defined.


Lemma Conv1D_needs_three_extents_witness :
  exists self s',
    Conv1D.__init__ (H := registry) (conv1d_call VNone VNone VNone None) caller_store
      = Returned self s' /\
    exists l, items_of (shape [4; 3; 5]) = Some l /\ (3 <= length l)%nat.
Proof.
  eexists _, _. split; [vm_compute; reflexivity |].
  eapply (Conv1D_needs_three_extents (H := registry)
            (conv1d_call VNone VNone VNone None) caller_store).
  vm_compute; reflexivity.
Defined.




(** A Conv1D with border mode 'same': a filter of length 5 over an input of
    length 10. *)
Lemma Conv1D_same_crops_full_witness :
  exists self s',
    Conv1D.__init__ (H := registry) (conv1d_call VNone VNone (VStr "same") None) caller_store
      = Returned self s' /\
    exists act conv W b kw,
      Conv1D.get_inputs self = [X] /\
      Conv1D.get_params self = [W; b] /\
      In ("border_mode", VStr "full") kw /\
      Conv1D.get_outputs self =
        Call act
          [Add (Subscript (Convolve conv X W kw)
                  [Full; Full; Range (Some ((5 - 1) / 2)) (Some (10 + (5 - 1) / 2))])
               (DimShuffle b [None; Some 0; None])] [].
Proof.
  eexists _, _. split; [vm_compute; reflexivity |].
  eapply (Conv1D_same_crops_full (H := registry)
            (conv1d_call VNone VNone (VStr "same") None) caller_store _ _ 2 3 10 4 3 5 X);
    vm_compute; reflexivity.
Defined.

